(** * gnome-timer: the countdown Timer and its refresh loop

    A shallow embedding of [src/extension.js] (the [Time] and [Timer]
    classes and the [TimerPopup] handlers that drive them), of the
    slider variant of the popup and of the first variant of the
    [Timer], in which [update] returns a value.

    Conventions.
    - A JavaScript number that holds a timestamp or a count of
      microseconds is a [Z]; [null] is [None].  The values the program
      manipulates are microsecond timestamps and their differences,
      below 2^53, where sums and differences of doubles holding
      integers are exact.
    - A division of microseconds is carried out in [Q]; the remainder
      [%], [Math.floor] and [Math.round] are the exact operations on
      [Q].  Below 2^53 the double quotient by one of the three unit
      constants and the exact quotient lie between the same two
      integers, so the floors agree.
    - The position of a slider is a double, and the products and
      quotients on it are those of binary64.
    - [GLib.get_real_time()] is an input: every operation takes the
      clock readings it performs as arguments, in the order it reads
      them.
    - [Time] objects live in a store and are referred to by location,
      since [Timer.time] and [options.time] are references to mutable
      objects. *)

From Stdlib Require Import ZArith QArith Qround Lia List Bool Sorted.
From Stdlib Require Import String Ascii DecimalString Floats.
Import ListNotations.

Local Open Scope Z_scope.

(** ** JavaScript primitives *)

Module Js.

(** [ToNumber] on a value that is a number or [null]. *)
Definition toNumber (v : option Z) : Z :=
  match v with
  | Some n => n
  | None => 0
  end.

(** [a / b] on numbers holding integers. *)
Definition div (a b : Z) : Q := (inject_Z a / inject_Z b)%Q.

(** Rounding towards zero, as the remainder operator does. *)
Definition trunc (x : Q) : Z :=
  if Qle_bool 0 x then Qfloor x else Qceiling x.

(** [x % n]: the result takes the sign of the dividend. *)
Definition rem (x : Q) (n : Z) : Q :=
  (x - inject_Z n * inject_Z (trunc (x / inject_Z n)))%Q.

(** [Math.floor]. *)
Definition floor (x : Q) : Z := Qfloor x.

(** [Math.round]: the nearest integer, halves towards +infinity. *)
Definition round (x : Q) : Z := Qfloor (x + (1 # 2))%Q.

(** The double that holds the integer [z], for [z] below 2^63 in
    magnitude (exactly so below 2^53). *)
Definition number (z : Z) : float :=
  match z with
  | Z0 => PrimFloat.zero
  | Zpos _ => PrimFloat.of_uint63 (Uint63.of_Z z)
  | Zneg _ => PrimFloat.opp (PrimFloat.of_uint63 (Uint63.of_Z (- z)))
  end.

(** The exact value of a double, when it is finite. *)
Definition exact (x : float) : option Q :=
  match Prim2SF x with
  | S754_zero _ => Some 0%Q
  | S754_finite s m e =>
      let n := if s then Zneg m else Zpos m in
      Some (match e with
            | Z0 => inject_Z n
            | Zpos _ => inject_Z (n * 2 ^ e)
            | Zneg p => Qmake n (2 ^ p)
            end)
  | S754_infinity _ => None
  | S754_nan => None
  end.

(** [Math.round] on a double.  The result of rounding a double that
    is not finite is not an integer; 0 stands for it. *)
Definition round_double (x : float) : Z :=
  match exact x with
  | Some q => round q
  | None => 0
  end.

(** [String(n)] for a number holding an integer. *)
Definition String_ (n : Z) : string :=
  NilZero.string_of_int (Z.to_int n).

Fixpoint repeat_char (c : ascii) (n : nat) : string :=
  match n with
  | O => EmptyString
  | S k => String c (repeat_char c k)
  end.

(** [s.padStart(len, c)] for a one-character pad string. *)
Definition padStart (len : nat) (c : ascii) (s : string) : string :=
  (repeat_char c (len - String.length s) ++ s)%string.

End Js.

(** ** class Time *)

Record Time : Type := mkTime
  { hours : Z;
    minutes : Z;
    seconds : Z }.

Definition getFormatted (t : Time) : string :=
  (Js.padStart 2 "0" (Js.String_ (hours t))
   ++ ":" ++ Js.padStart 2 "0" (Js.String_ (minutes t))
   ++ ":" ++ Js.padStart 2 "0" (Js.String_ (seconds t)))%string.

Definition set_hours (v : Z) (t : Time) : Time :=
  mkTime v (minutes t) (seconds t).
Definition set_minutes (v : Z) (t : Time) : Time :=
  mkTime (hours t) v (seconds t).
Definition set_seconds (v : Z) (t : Time) : Time :=
  mkTime (hours t) (minutes t) v.

(** ** The store of [Time] objects *)

Definition loc := positive.

Record Heap : Type := mkHeap
  { cells : loc -> Time;
    next : loc }.

Definition deref (h : Heap) (l : loc) : Time := cells h l.

Definition store (l : loc) (t : Time) (h : Heap) : Heap :=
  mkHeap (fun l' => if Pos.eqb l' l then t else cells h l') (next h).

(** A field assignment [obj.f = v] through the reference [l]. *)
Definition assign (l : loc) (f : Time -> Time) (h : Heap) : Heap :=
  store l (f (deref h l)) h.

(** [new Time(hh, mm, ss)]: a fresh object. *)
Definition new_Time (hh mm ss : Z) (h : Heap) : loc * Heap :=
  (next h,
   mkHeap (fun l' => if Pos.eqb l' (next h) then mkTime hh mm ss else cells h l')
          (Pos.succ (next h))).

Definition allocated (h : Heap) (l : loc) : Prop := (l < next h)%positive.

(** The store before any [Time] is constructed. *)
Definition empty_heap : Heap := mkHeap (fun _ => mkTime 0 0 0) 1%positive.

(** ** class Timer *)

Inductive State : Type :=
| STATE_PLAY
| STATE_PAUSE
| STATE_STOP.

Definition State_eqb (a b : State) : bool :=
  match a, b with
  | STATE_PLAY, STATE_PLAY => true
  | STATE_PAUSE, STATE_PAUSE => true
  | STATE_STOP, STATE_STOP => true
  | _, _ => false
  end.

Definition SECOND_TO_MS : Z := 1000000.
Definition MINUTE_TO_MS : Z := 1000000 * 60.
Definition HOUR_TO_MS : Z := 1000000 * 60 * 60.

Record Timer : Type := mkTimer
  { mcsLeft : option Z;
    pauseTimestamp : option Z;
    finishTimestamp : option Z;
    time : loc;
    state : State }.

Definition set_mcsLeft (v : option Z) (t : Timer) : Timer :=
  mkTimer v (pauseTimestamp t) (finishTimestamp t) (time t) (state t).
Definition set_pauseTimestamp (v : option Z) (t : Timer) : Timer :=
  mkTimer (mcsLeft t) v (finishTimestamp t) (time t) (state t).
Definition set_finishTimestamp (v : option Z) (t : Timer) : Timer :=
  mkTimer (mcsLeft t) (pauseTimestamp t) v (time t) (state t).
Definition set_time (v : loc) (t : Timer) : Timer :=
  mkTimer (mcsLeft t) (pauseTimestamp t) (finishTimestamp t) v (state t).
Definition set_state (v : State) (t : Timer) : Timer :=
  mkTimer (mcsLeft t) (pauseTimestamp t) (finishTimestamp t) (time t) v.

(** A [Timer] together with the store its [time] reference points into. *)
Record TimerObj : Type := mkObj
  { heap : Heap;
    this : Timer }.

Definition isPaused (t : Timer) : bool := State_eqb (state t) STATE_PAUSE.
Definition isPlaying (t : Timer) : bool := State_eqb (state t) STATE_PLAY.
Definition isStopped (t : Timer) : bool := State_eqb (state t) STATE_STOP.

(** The [Time] the timer currently shows, [this.time]. *)
Definition shown (o : TimerObj) : Time := deref (heap o) (time (this o)).

(** [setTime(time)]: [this.time = new Time(time.hours, time.minutes, time.seconds)],
    where [time] is a reference [src]. *)
Definition setTime (src : loc) (o : TimerObj) : TimerObj :=
  let t := deref (heap o) src in
  let (l, h') := new_Time (hours t) (minutes t) (seconds t) (heap o) in
  mkObj h' (set_time l (this o)).

(** [stop()]. *)
Definition stop (o : TimerObj) : TimerObj :=
  let l := time (this o) in
  let h1 := assign l (set_seconds 0) (heap o) in
  let h2 := assign l (set_minutes 0) h1 in
  let h3 := assign l (set_hours 0) h2 in
  mkObj h3 (set_state STATE_STOP (this o)).

(** The three unit computations of [update()], on the value just
    stored in [mcsLeft]. *)
Definition seconds_of (mcs : Z) : Z :=
  Js.floor (Js.rem (Js.div mcs SECOND_TO_MS) 60).
Definition minutes_of (mcs : Z) : Z :=
  Js.floor (Js.rem (Js.div mcs MINUTE_TO_MS) 60).
Definition hours_of (mcs : Z) : Z :=
  Js.floor (Js.div mcs HOUR_TO_MS).

(** [update()], reading the clock once. *)
Definition update (now : Z) (o : TimerObj) : TimerObj :=
  if isPaused (this o) then o
  else
    let mcs := Js.toNumber (finishTimestamp (this o)) - now in
    let o1 := mkObj (heap o) (set_mcsLeft (Some mcs) (this o)) in
    let o2 := if mcs <=? 0 then stop o1 else o1 in
    let l := time (this o2) in
    let h1 := assign l (set_seconds (seconds_of mcs)) (heap o2) in
    let h2 := assign l (set_minutes (minutes_of mcs)) h1 in
    let h3 := assign l (set_hours (hours_of mcs)) h2 in
    mkObj h3 (this o2).

(** [start()]: reads the clock once itself ([now0]) and once more in
    the [update()] it ends with ([now1]). *)
Definition start (now0 now1 : Z) (o : TimerObj) : TimerObj :=
  let t := shown o in
  let finish := now0
                + SECOND_TO_MS * seconds t
                + MINUTE_TO_MS * minutes t
                + HOUR_TO_MS * hours t in
  let tm := set_state STATE_PLAY (set_finishTimestamp (Some finish) (this o)) in
  update now1 (mkObj (heap o) tm).

(** [pause()]. *)
Definition pause (now : Z) (o : TimerObj) : TimerObj :=
  mkObj (heap o)
        (set_state STATE_PAUSE (set_pauseTimestamp (Some now) (this o))).

(** [resume()]: [finishTimestamp += now - pauseTimestamp]. *)
Definition resume (now : Z) (o : TimerObj) : TimerObj :=
  let finish := Js.toNumber (finishTimestamp (this o))
                + (now - Js.toNumber (pauseTimestamp (this o))) in
  mkObj (heap o)
        (set_state STATE_PLAY
           (set_pauseTimestamp None
              (set_finishTimestamp (Some finish) (this o)))).

(** [new Timer(time)].  The fields [time] and [state] are not set
    before the constructor assigns them; the record needs a value for
    them until then. *)
Definition new_Timer (src : loc) (h : Heap) : TimerObj :=
  let o := setTime src (mkObj h (mkTimer None None None 1%positive STATE_STOP)) in
  mkObj (heap o) (set_state STATE_STOP (this o)).

(** A timer constructed on a new [Time] of [hh:mm:ss]. *)
Definition timer_of (hh mm ss : Z) : TimerObj :=
  let (l, h) := new_Time hh mm ss empty_heap in
  new_Timer l h.

(** One call of a [Timer] operation. *)
Inductive Op : Type :=
| OpSetTime (src : loc)
| OpStart (now0 now1 : Z)
| OpPause (now : Z)
| OpResume (now : Z)
| OpStop
| OpUpdate (now : Z).

Definition perform (op : Op) (o : TimerObj) : TimerObj :=
  match op with
  | OpSetTime src => setTime src o
  | OpStart now0 now1 => start now0 now1 o
  | OpPause now => pause now o
  | OpResume now => resume now o
  | OpStop => stop o
  | OpUpdate now => update now o
  end.

(** ** TimerPopup (src/extension.js) *)

Definition playStateLabelMap (s : State) : string :=
  match s with
  | STATE_PLAY => "Pause"
  | STATE_PAUSE => "Resume"
  | STATE_STOP => "Start"
  end.

Definition playStateIconMap (s : State) : string :=
  match s with
  | STATE_PLAY => "media-playback-start-symbolic"
  | STATE_PAUSE => "media-playback-pause-symbolic"
  | STATE_STOP => "media-playback-stop-symbolic"
  end.

(** The calls the popup makes, in the order it makes them: to the
    methods of its timer, to the main loop and to the notification
    area. *)
Inductive Call : Type :=
| CallTimer (op : Op)
| CallTimeoutAdd (interval : Z) (id : nat)
| CallSourceRemove (id : option nat)
| CallNotify (text : string).

Record Popup : Type := mkPopup
  { timer : TimerObj;            (* this.timer, with the store *)
    options_time : loc;          (* this.options.time *)
    timeout : option nat;        (* this.timeout, undefined at first *)
    panelLabel : string;         (* text of this.panelLabel *)
    panelIcon : string;          (* icon name of this.panelIcon *)
    playLabel : string;          (* text of this.menuItems.play.label *)
    sources : list nat;          (* the main loop's active sources *)
    next_source : nat;           (* the id the main loop hands out next *)
    calls : list Call }.         (* oldest first *)

Definition with_timer (o : TimerObj) (w : Popup) : Popup :=
  mkPopup o (options_time w) (timeout w) (panelLabel w) (panelIcon w)
          (playLabel w) (sources w) (next_source w) (calls w).
Definition with_timeout (v : option nat) (w : Popup) : Popup :=
  mkPopup (timer w) (options_time w) v (panelLabel w) (panelIcon w)
          (playLabel w) (sources w) (next_source w) (calls w).
Definition with_panelLabel (v : string) (w : Popup) : Popup :=
  mkPopup (timer w) (options_time w) (timeout w) v (panelIcon w)
          (playLabel w) (sources w) (next_source w) (calls w).
Definition with_panelIcon (v : string) (w : Popup) : Popup :=
  mkPopup (timer w) (options_time w) (timeout w) (panelLabel w) v
          (playLabel w) (sources w) (next_source w) (calls w).
Definition with_playLabel (v : string) (w : Popup) : Popup :=
  mkPopup (timer w) (options_time w) (timeout w) (panelLabel w) (panelIcon w)
          v (sources w) (next_source w) (calls w).
Definition with_sources (v : list nat) (n : nat) (w : Popup) : Popup :=
  mkPopup (timer w) (options_time w) (timeout w) (panelLabel w) (panelIcon w)
          (playLabel w) v n (calls w).
Definition called (c : Call) (w : Popup) : Popup :=
  mkPopup (timer w) (options_time w) (timeout w) (panelLabel w) (panelIcon w)
          (playLabel w) (sources w) (next_source w) (calls w ++ [c]).

(** A method call [this.timer.m(...)]. *)
Definition call_timer (op : Op) (w : Popup) : Popup :=
  with_timer (perform op (timer w)) (called (CallTimer op) w).

(** [Mainloop.timeout_add(interval, callback)]: registers a source and
    returns its id. *)
Definition timeout_add (interval : Z) (w : Popup) : nat * Popup :=
  let id := next_source w in
  (id, called (CallTimeoutAdd interval id)
         (with_sources (sources w ++ [id]) (S id) w)).

(** [Mainloop.source_remove(id)]: an id that names no active source
    (also [undefined]) removes nothing. *)
Definition source_remove (id : option nat) (w : Popup) : Popup :=
  let keep := match id with
              | Some i => filter (fun j => negb (Nat.eqb j i)) (sources w)
              | None => sources w
              end in
  called (CallSourceRemove id) (with_sources keep (next_source w) w).

(** [Main.notify(text)]. *)
Definition notify (text : string) (w : Popup) : Popup :=
  called (CallNotify text) w.

(** Truthiness of an optional string argument. *)
Definition truthy (s : option string) : bool :=
  match s with
  | Some EmptyString => false
  | Some _ => true
  | None => false
  end.

Definition updatePanelLabel (panelLabelText : option string) (w : Popup) : Popup :=
  let w1 :=
    if truthy panelLabelText then
      with_panelLabel (match panelLabelText with Some s => s | None => EmptyString end) w
    else if isStopped (this (timer w)) then
      with_panelLabel (getFormatted (deref (heap (timer w)) (options_time w))) w
    else
      with_panelLabel (getFormatted (shown (timer w))) w in
  with_panelIcon (playStateIconMap (state (this (timer w1)))) w1.

Definition stopTimer (panelLabelText : option string) (w : Popup) : Popup :=
  let w1 := source_remove (timeout w) w in
  let w2 := call_timer OpStop w1 in
  let w3 := updatePanelLabel panelLabelText w2 in
  with_playLabel (playStateLabelMap STATE_STOP) w3.

(** [updateTimer()], the refresh callback; the boolean is its return
    value, [false] telling the main loop not to call it again. *)
Definition updateTimer (now : Z) (w : Popup) : Popup * bool :=
  let w1 := call_timer (OpUpdate now) w in
  if isStopped (this (timer w1)) then
    let w2 := stopTimer (Some "Done!"%string) w1 in
    let w3 := notify "Done!" w2 in
    (w3, false)
  else
    (updatePanelLabel None w1, true).

(** [handlePlayClick()].  The clock is read twice by [start()] and
    once by [updateTimer()], or once by [pause()] or [resume()]. *)
Definition handlePlayClick (now0 now1 now2 : Z) (w : Popup) : Popup :=
  let w' :=
    if isStopped (this (timer w)) then
      let w1 := call_timer (OpSetTime (options_time w)) w in
      let w2 := call_timer (OpStart now0 now1) w1 in
      let w3 := fst (updateTimer now2 w2) in
      let (id, w4) := timeout_add 500 w3 in
      with_timeout (Some id) w4
    else if isPlaying (this (timer w)) then
      call_timer (OpPause now0) w
    else if isPaused (this (timer w)) then
      call_timer (OpResume now0) w
    else w in
  with_playLabel (playStateLabelMap (state (this (timer w')))) w'.

(** The main loop dispatching the source [id]: the callback runs, and a
    [false] result destroys the source. *)
Definition dispatch (id : nat) (now : Z) (w : Popup) : Popup :=
  if existsb (Nat.eqb id) (sources w) then
    let (w1, again) := updateTimer now w in
    if again then w1
    else with_sources (filter (fun j => negb (Nat.eqb j id)) (sources w1))
                      (next_source w1) w1
  else w.

(** [_init()], with [hh:mm:ss] for the default time: the popup as
    constructed, no source registered yet. *)
Definition popup_of (hh mm ss : Z) : Popup :=
  let (l, h) := new_Time hh mm ss empty_heap in
  let o := new_Timer l h in
  mkPopup o l None (getFormatted (deref (heap o) l))
          (playStateIconMap (state (this o))) "Start" [] 1%nat [].

(** The popup of [src/extension.js], whose default time is 00:40:00. *)
Definition init_Popup : Popup := popup_of 0 40 0.

(** ** The popup with sliders *)

Module Sliders.

Definition MAX_HOURS : Z := 10.

(** The [value] of the three sliders, each a double between 0 and 1. *)
Record Sliders : Type := mkSliders
  { s_hours : float;
    s_minutes : float;
    s_seconds : float }.

(** [handleTimeInput()]: writes the fields of [this.options.time]. *)
Definition handleTimeInput (sl : Sliders) (w : Popup) : Popup :=
  let l := options_time w in
  let h1 := assign l (set_hours
                        (Js.round_double
                           (PrimFloat.mul (Js.number MAX_HOURS) (s_hours sl))))
                   (heap (timer w)) in
  let h2 := assign l (set_minutes
                        (Js.round_double
                           (PrimFloat.mul (Js.number 60) (s_minutes sl)))) h1 in
  let h3 := assign l (set_seconds
                        (Js.round_double
                           (PrimFloat.mul (Js.number 60) (s_seconds sl)))) h2 in
  updatePanelLabel None (with_timer (mkObj h3 (this (timer w))) w).

Definition stopDisplayingTime (w : Popup) : Popup :=
  source_remove (timeout w) w.

Definition stopTimer (panelLabelText : option string) (w : Popup) : Popup :=
  let w1 := stopDisplayingTime w in
  let w2 := call_timer OpStop w1 in
  let w3 := updatePanelLabel panelLabelText w2 in
  with_playLabel (playStateLabelMap STATE_STOP) w3.

Definition updateTimer (now : Z) (w : Popup) : Popup * bool :=
  let w1 := call_timer (OpUpdate now) w in
  if isStopped (this (timer w1)) then
    let w2 := stopTimer (Some "Done!"%string) w1 in
    let w3 := notify "Done!" w2 in
    (w3, false)
  else
    (updatePanelLabel None w1, true).

Definition startDisplayingTime (now : Z) (w : Popup) : Popup :=
  let w1 := fst (updateTimer now w) in
  let (id, w2) := timeout_add 500 w1 in
  with_timeout (Some id) w2.

Definition startTimer (now0 now1 now2 : Z) (w : Popup) : Popup :=
  let w1 := call_timer (OpSetTime (options_time w)) w in
  let w2 := call_timer (OpStart now0 now1) w1 in
  startDisplayingTime now2 w2.

Definition handlePlayClick (now0 now1 now2 : Z) (w : Popup) : Popup :=
  let w' :=
    if isStopped (this (timer w)) then startTimer now0 now1 now2 w
    else if isPlaying (this (timer w)) then
      call_timer (OpPause now0) w
    else if isPaused (this (timer w)) then
      call_timer (OpResume now0) w
    else w in
  with_playLabel (playStateLabelMap (state (this (timer w')))) w'.

End Sliders.

(** ** The first variant of the Timer, whose [update] returns a value *)

Module First.

Record Timer : Type := mkTimer
  { mcsLeft : option Z;
    pauseTimestamp : option Z;
    finishTimestamp : Z;
    seconds : option Z;        (* undefined until the first update *)
    minutes : option Z;
    hours : option Z }.

(** What [update()] returns: [this.mcsLeft] or [false]. *)
Inductive Ret : Type :=
| RetMcsLeft (v : option Z)
| RetFalse.

(** [new Timer(hours, minutes, seconds)]. *)
Definition new_Timer (now hh mm ss : Z) : Timer :=
  mkTimer None None
          (now + SECOND_TO_MS * ss + MINUTE_TO_MS * mm + HOUR_TO_MS * hh)
          None None None.

Definition isPaused (t : Timer) : bool :=
  match pauseTimestamp t with
  | Some _ => true
  | None => false
  end.

Definition isFinished (t : Timer) : bool :=
  Js.toNumber (mcsLeft t) <=? 0.

Definition update (now : Z) (t : Timer) : Timer * Ret :=
  if isPaused t then (t, RetMcsLeft (mcsLeft t))
  else
    let mcs := finishTimestamp t - now in
    let t1 := mkTimer (Some mcs) (pauseTimestamp t) (finishTimestamp t)
                      (seconds t) (minutes t) (hours t) in
    if isFinished t1 then (t1, RetFalse)
    else
      (mkTimer (Some mcs) (pauseTimestamp t) (finishTimestamp t)
               (Some (seconds_of mcs)) (Some (minutes_of mcs))
               (Some (hours_of mcs)),
       RetMcsLeft (Some mcs)).

Definition pause (now : Z) (t : Timer) : Timer :=
  mkTimer (mcsLeft t) (Some now) (finishTimestamp t)
          (seconds t) (minutes t) (hours t).

Definition resume (now : Z) (t : Timer) : Timer :=
  mkTimer (mcsLeft t) None
          (finishTimestamp t + (now - Js.toNumber (pauseTimestamp t)))
          (seconds t) (minutes t) (hours t).

End First.

(** ** Runs of operations *)

(** Successive [update()] calls at the given clock readings; the
    result lists the timer after each call. *)
Fixpoint updates (clock : list Z) (o : TimerObj) : list TimerObj :=
  match clock with
  | [] => []
  | now :: rest => let o' := update now o in o' :: updates rest o'
  end.

(** The timers that a sequence of operations produces from a newly
    constructed one. *)
Inductive reachable : TimerObj -> Prop :=
| reach_new : forall src h, reachable (new_Timer src h)
| reach_op : forall op o, reachable o -> reachable (perform op o).

(** The remaining time in whole seconds that a [Time] displays. *)
Definition total_seconds (t : Time) : Z :=
  3600 * hours t + 60 * minutes t + seconds t.

(** The value [update()] last stored in [mcsLeft]. *)
Definition remaining (o : TimerObj) : Z := Js.toNumber (mcsLeft (this o)).

(** The refresh interval, in microseconds. *)
Definition TICK : Z := 500 * 1000.

(** The duration a [Time] stands for, as [start()] adds it to the clock. *)
Definition configured_mcs (t : Time) : Z :=
  SECOND_TO_MS * seconds t + MINUTE_TO_MS * minutes t + HOUR_TO_MS * hours t.

(** The units as the specification derives them from a remaining time
    [r]: hours = floor(r / HOUR), minutes = floor(r / MINUTE) mod 60,
    seconds = floor(r / SECOND) mod 60. *)
Definition units_spec (r : Z) : Time :=
  mkTime (r / HOUR_TO_MS)
         ((r / MINUTE_TO_MS) mod 60)
         ((r / SECOND_TO_MS) mod 60).

(** Two timers with the same fields and the same shown [Time], in
    stores that may differ elsewhere. *)
Definition agree (a b : TimerObj) : Prop :=
  this a = this b /\ shown a = shown b.

Definition is_setTime (op : Op) : bool :=
  match op with
  | OpSetTime _ => true
  | _ => false
  end.

(** A run of operations, the first of the list first. *)
Definition perform_all (ops : list Op) (o : TimerObj) : TimerObj :=
  fold_left (fun o' op => perform op o') ops o.

(** A timer that plays, or has stopped for good with respect to the
    clock readings still to come. *)
Definition stopped_or_playing (s : State) (f : Z) (clock : list Z) : Prop :=
  s = STATE_PLAY \/ (s = STATE_STOP /\ Forall (fun now => f - now <= 0) clock).

(** How two results of a run compare, the first being the earlier. *)
Definition runs_down (a b : TimerObj) : Prop :=
  remaining b <= remaining a
  /\ (state (this a) = STATE_STOP -> state (this b) = STATE_STOP)
  /\ (state (this b) = STATE_PLAY ->
      total_seconds (shown b) <= total_seconds (shown a)).

Definition count_notify (cs : list Call) : nat :=
  List.length (filter (fun c => match c with CallNotify _ => true | _ => false end) cs).

Definition count_update (cs : list Call) : nat :=
  List.length
    (filter (fun c => match c with CallTimer (OpUpdate _) => true | _ => false end) cs).

(** ** Further definitions: formatting, runs of events, the life cycle *)

(** The decimal digit [d] as a character, and a number below 100 as
    the two characters that [getFormatted()] shows for it. *)
Definition digit_char (d : Z) : ascii := ascii_of_nat (48 + Z.to_nat d).

Definition two_digits (n : Z) : string :=
  String (digit_char (n / 10)) (String (digit_char (n mod 10)) EmptyString).

(** The number that two digit characters denote. *)
Definition parse2 (c1 c2 : ascii) : Z :=
  10 * (Z.of_nat (nat_of_ascii c1) - 48) + (Z.of_nat (nat_of_ascii c2) - 48).

Definition in_two_digits (t : Time) : Prop :=
  0 <= hours t <= 99 /\ 0 <= minutes t <= 99 /\ 0 <= seconds t <= 99.

(** Pauses one after the other: each pair is the clock at [pause()]
    and the length of the pause that [resume()] ends. *)
Fixpoint pause_cycles (cycles : list (Z * Z)) (o : TimerObj) : TimerObj :=
  match cycles with
  | [] => o
  | (p, delta) :: rest => pause_cycles rest (resume (p + delta) (pause p o))
  end.

Definition sum_pauses (cycles : list (Z * Z)) : Z :=
  fold_right (fun c acc => snd c + acc) 0 cycles.

(** What happens to a popup: a click on the play item, a click on the
    stop item, the main loop dispatching a source, a slider moving. *)
Inductive Event : Type :=
| EvPlayClick (now0 now1 now2 : Z)
| EvStopClick
| EvDispatch (id : nat) (now : Z)
| EvSlider (hh mm ss : float).

(** The popup is well formed when [options.time] and the timer's [time]
    are two constructed objects. *)
Definition popup_wf (w : Popup) : Prop :=
  allocated (heap (timer w)) (options_time w)
  /\ allocated (heap (timer w)) (time (this (timer w)))
  /\ time (this (timer w)) <> options_time w.

(** The configured time, [options.time], as a value. *)
Definition configured (w : Popup) : Time :=
  deref (heap (timer w)) (options_time w).

Definition is_slider (e : Event) : bool :=
  match e with
  | EvSlider _ _ _ => true
  | _ => false
  end.

(** ** The popup with sliders: construction and destruction *)

Module Lifecycle.

(** The [Extension] while no popup exists: its timer (with the store)
    and, beside it, the main loop and the calls made so far. *)
Record Shell : Type := mkShell
  { sh_timer : TimerObj;
    sh_sources : list nat;
    sh_next : nat;
    sh_calls : list Call }.

(** [new Timer()] in the constructor of [Extension]: no [time] is
    passed, and [this.time] stays undefined until [setTime()]; the
    location written here is not read before. *)
Definition new_Extension : Shell :=
  mkShell (mkObj empty_heap (mkTimer None None None 1%positive STATE_STOP))
          [] 1%nat [].

(** The positions the sliders are constructed at, from [options.time]:
    the double quotients of its fields. *)
Definition init_sliders (t : Time) : Sliders.Sliders :=
  Sliders.mkSliders
    (PrimFloat.div (Js.number (hours t)) (Js.number Sliders.MAX_HOURS))
    (PrimFloat.div (Js.number (minutes t)) (Js.number 60))
    (PrimFloat.div (Js.number (seconds t)) (Js.number 60)).

(** [_init(timer)]; the clock is read by [startDisplayingTime()], when
    the timer is not Stopped. *)
Definition _init (now : Z) (e : Shell) : Popup :=
  let (l, h) := new_Time 0 40 0 (heap (sh_timer e)) in
  let w0 := mkPopup (mkObj h (this (sh_timer e))) l None EmptyString EmptyString
                    EmptyString (sh_sources e) (sh_next e) (sh_calls e) in
  let w1 := if isStopped (this (timer w0)) then call_timer (OpSetTime l) w0
            else w0 in
  let w2 := with_playLabel "Start"
              (with_panelIcon (playStateIconMap (state (this (timer w1))))
                 (with_panelLabel (getFormatted (configured w1)) w1)) in
  if negb (isStopped (this (timer w2))) then Sliders.startDisplayingTime now w2
  else w2.

(** [destroy()]. *)
Definition destroy (w : Popup) : Popup := Sliders.stopDisplayingTime w.

(** [Extension.enable()] and [Extension.disable()]. *)
Definition enable (now : Z) (e : Shell) : Popup := _init now e.

Definition disable (w : Popup) : Shell :=
  let w' := destroy w in
  mkShell (timer w') (sources w') (next_source w') (calls w').

(** The popup reacting to an event. *)
Definition react (e : Event) (w : Popup) : Popup :=
  match e with
  | EvPlayClick now0 now1 now2 => Sliders.handlePlayClick now0 now1 now2 w
  | EvStopClick => Sliders.stopTimer None w
  | EvDispatch id now => dispatch id now w
  | EvSlider hh mm ss => Sliders.handleTimeInput (Sliders.mkSliders hh mm ss) w
  end.

Definition react_all (es : list Event) (w : Popup) : Popup :=
  fold_left (fun w' e => react e w') es w.

End Lifecycle.

(** A timer and another object [lo], both constructed and distinct. *)
Definition apart (lo : loc) (o : TimerObj) : Prop :=
  allocated (heap o) lo /\ allocated (heap o) (time (this o))
  /\ time (this o) <> lo.

(** ** The popup of the first variant *)

Module FirstPopup.

(** [String(v)] for a field that holds a number or is undefined. *)
Definition String_ (v : option Z) : string :=
  match v with
  | Some n => Js.String_ n
  | None => "undefined"
  end.

Record Popup : Type := mkPopup
  { state : State;                 (* this.state *)
    timer : option First.Timer;    (* this.timer, undefined at first *)
    timeout : option nat;          (* this.timeout, undefined at first *)
    panelLabel : string;
    playLabel : string;
    sources : list nat;            (* the main loop's active sources *)
    next_source : nat;
    notified : list string }.      (* Main.notify calls, oldest first *)

(** [_init()]. *)
Definition init : Popup :=
  mkPopup STATE_STOP None None "Timer" "Start" [] 1%nat [].

Definition stopTimer (panelLabelText : string) (w : Popup) : Popup :=
  let keep := match timeout w with
              | Some i => filter (fun j => negb (Nat.eqb j i)) (sources w)
              | None => sources w
              end in
  mkPopup STATE_STOP (timer w) (timeout w) panelLabelText
          (playStateLabelMap STATE_STOP) keep (next_source w) (notified w).

(** [updateTime()]; [None] is the TypeError of calling a method of an
    undefined [this.timer]. *)
Definition updateTime (now : Z) (w : Popup) : option (Popup * bool) :=
  match timer w with
  | None => None
  | Some t =>
      let (t', msLeft) := First.update now t in
      let w1 := mkPopup (state w) (Some t') (timeout w) (panelLabel w)
                        (playLabel w) (sources w) (next_source w) (notified w) in
      match msLeft with
      | First.RetFalse =>
          let w2 := stopTimer "Done!" w1 in
          Some (mkPopup (state w2) (timer w2) (timeout w2) (panelLabel w2)
                        (playLabel w2) (sources w2) (next_source w2)
                        (notified w2 ++ ["Done!"%string]),
                false)
      | First.RetMcsLeft _ =>
          let text := (Js.padStart 2 "0" (String_ (First.hours t'))
                       ++ ":" ++ Js.padStart 2 "0" (String_ (First.minutes t'))
                       ++ ":" ++ Js.padStart 2 "0" (String_ (First.seconds t')))%string in
          Some (mkPopup (state w1) (timer w1) (timeout w1) text
                        (playLabel w1) (sources w1) (next_source w1) (notified w1),
                true)
      end
  end.

Definition set_playLabel (w : Popup) : Popup :=
  mkPopup (state w) (timer w) (timeout w) (panelLabel w)
          (playStateLabelMap (state w)) (sources w) (next_source w) (notified w).

(** [handlePlayClick()]: the clock is read by [new Timer(0, 0, 5)] and
    by [updateTime()], or by [pause()] or [resume()]. *)
Definition handlePlayClick (now0 now1 : Z) (w : Popup) : option Popup :=
  match state w with
  | STATE_STOP =>
      let w1 := mkPopup STATE_PLAY (Some (First.new_Timer now0 0 0 5)) (timeout w)
                        (panelLabel w) (playLabel w) (sources w) (next_source w)
                        (notified w) in
      match updateTime now1 w1 with
      | None => None
      | Some (w2, _) =>
          let id := next_source w2 in
          Some (set_playLabel
                  (mkPopup (state w2) (timer w2) (Some id) (panelLabel w2)
                           (playLabel w2) (sources w2 ++ [id]) (S id)
                           (notified w2)))
      end
  | STATE_PLAY =>
      match timer w with
      | None => None
      | Some t =>
          Some (set_playLabel
                  (mkPopup STATE_PAUSE (Some (First.pause now0 t)) (timeout w)
                           (panelLabel w) (playLabel w) (sources w)
                           (next_source w) (notified w)))
      end
  | STATE_PAUSE =>
      match timer w with
      | None => None
      | Some t =>
          Some (set_playLabel
                  (mkPopup STATE_PLAY (Some (First.resume now0 t)) (timeout w)
                           (panelLabel w) (playLabel w) (sources w)
                           (next_source w) (notified w)))
      end
  end.

(** The main loop dispatching the source [id]. *)
Definition dispatch (id : nat) (now : Z) (w : Popup) : option Popup :=
  if existsb (Nat.eqb id) (sources w) then
    match updateTime now w with
    | None => None
    | Some (w1, again) =>
        if again then Some w1
        else Some (mkPopup (state w1) (timer w1) (timeout w1) (panelLabel w1)
                           (playLabel w1)
                           (filter (fun j => negb (Nat.eqb j id)) (sources w1))
                           (next_source w1) (notified w1))
    end
  else Some w.

Inductive Event : Type :=
| EvPlayClick (now0 now1 : Z)
| EvStopClick
| EvDispatch (id : nat) (now : Z).

Definition react (e : Event) (w : Popup) : option Popup :=
  match e with
  | EvPlayClick now0 now1 => handlePlayClick now0 now1 w
  | EvStopClick => Some (stopTimer "00:00:00" w)
  | EvDispatch id now => dispatch id now w
  end.

Fixpoint react_all (es : list Event) (w : Popup) : option Popup :=
  match es with
  | [] => Some w
  | e :: rest =>
      match react e w with
      | None => None
      | Some w' => react_all rest w'
      end
  end.

(** The popup's state and its timer go together: without a timer the
    popup is Stopped and no source is registered; a Playing popup has
    a timer that is not paused, a Paused popup one that is. *)
Definition in_step (w : Popup) : Prop :=
  match timer w with
  | None => state w = STATE_STOP /\ sources w = []
  | Some t =>
      (state w = STATE_PLAY -> First.isPaused t = false)
      /\ (state w = STATE_PAUSE -> First.isPaused t = true)
  end.

End FirstPopup.

(** * Properties *)

Example getFormatted_40min :
  getFormatted (mkTime 0 40 0) = "00:40:00"%string.
Proof. reflexivity. Qed.

(** ** The store *)

Lemma deref_assign_same (l : loc) (f : Time -> Time) (h : Heap) :
  deref (assign l f h) l = f (deref h l).
Proof. unfold assign, store, deref. simpl. now rewrite Pos.eqb_refl. Qed.

Lemma deref_assign_other (l l' : loc) (f : Time -> Time) (h : Heap) :
  l' <> l -> deref (assign l f h) l' = deref h l'.
Proof.
  intros Hne. unfold assign, store, deref. simpl.
  destruct (Pos.eqb_spec l' l); [contradiction | reflexivity].
Qed.

Lemma next_assign (l : loc) (f : Time -> Time) (h : Heap) :
  next (assign l f h) = next h.
Proof. reflexivity. Qed.

Lemma new_Time_fresh (hh mm ss : Z) (h : Heap) (l : loc) :
  allocated h l -> fst (new_Time hh mm ss h) <> l.
Proof. unfold allocated, new_Time. simpl. intros Hl E. rewrite E in Hl. lia. Qed.

Lemma new_Time_allocated (hh mm ss : Z) (h : Heap) (l : loc) :
  allocated h l -> allocated (snd (new_Time hh mm ss h)) l.
Proof. unfold allocated, new_Time. simpl. lia. Qed.

(** ** Arithmetic of the unit computations *)

Lemma inject_Z_nonzero (b : Z) : b <> 0 -> ~ (inject_Z b == 0)%Q.
Proof. intros Hb H. apply Hb. unfold Qeq in H. simpl in H. lia. Qed.

Lemma Qdiv_nonneg_iff (a b : Z) :
  0 < b -> (0 <= inject_Z a / inject_Z b)%Q <-> 0 <= a.
Proof.
  intros Hb. destruct b as [|p|p]; try lia.
  rewrite <- Qmake_Qdiv. unfold Qle. simpl. lia.
Qed.

(** [Math.floor(a / b)] is the floor division of [Z]. *)
Lemma floor_div (a b : Z) : Js.floor (Js.div a b) = a / b.
Proof. unfold Js.floor, Js.div. symmetry. apply Zdiv_Qdiv. Qed.

Lemma trunc_div (a b : Z) : 0 < b -> Js.trunc (Js.div a b) = a ÷ b.
Proof.
  intros Hb. unfold Js.trunc, Js.div.
  destruct (Qle_bool 0 (inject_Z a / inject_Z b)) eqn:E.
  - apply Qle_bool_iff in E. apply Qdiv_nonneg_iff in E; [|exact Hb].
    rewrite <- Zdiv_Qdiv. symmetry. apply Z.quot_div_nonneg; assumption.
  - assert (Ha : a < 0).
    { destruct (Z_lt_ge_dec a 0) as [H|H]; [exact H|].
      exfalso. assert (Qle_bool 0 (inject_Z a / inject_Z b) = true).
      { apply Qle_bool_iff. apply Qdiv_nonneg_iff; lia. }
      congruence. }
    unfold Qceiling.
    assert (Heq : (- (inject_Z a / inject_Z b) == inject_Z (- a) / inject_Z b)%Q).
    { rewrite inject_Z_opp. field. apply inject_Z_nonzero. lia. }
    rewrite (Qfloor_comp _ _ Heq). rewrite <- Zdiv_Qdiv.
    rewrite <- (Z.quot_div_nonneg (- a) b) by lia.
    rewrite Z.quot_opp_l by lia. lia.
Qed.

(** [Math.floor(a / b % n)] in terms of the truncating remainder and
    the floor division of [Z]. *)
Lemma floor_rem_div (a b n : Z) :
  0 < b -> 0 < n ->
  Js.floor (Js.rem (Js.div a b) n) = Z.rem a (n * b) / b.
Proof.
  intros Hb Hn. unfold Js.floor, Js.rem.
  assert (Hq : Js.trunc (Js.div a b / inject_Z n) = a ÷ (n * b)).
  { rewrite <- (trunc_div a (n * b)) by lia.
    unfold Js.trunc.
    assert (Heq : (Js.div a b / inject_Z n == Js.div a (n * b))%Q).
    { unfold Js.div. rewrite inject_Z_mult. field.
      split; apply inject_Z_nonzero; lia. }
    rewrite (Qleb_comp _ _ (Qeq_refl 0) _ _ Heq).
    rewrite (Qfloor_comp _ _ Heq), (Qceiling_comp _ _ Heq). reflexivity. }
  rewrite Hq.
  assert (Heq : (Js.div a b - inject_Z n * inject_Z (a ÷ (n * b))
                 == inject_Z (Z.rem a (n * b)) / inject_Z b)%Q).
  { rewrite Z.rem_eq by lia. unfold Js.div.
    unfold Zminus. rewrite inject_Z_plus, inject_Z_opp, !inject_Z_mult.
    field. apply inject_Z_nonzero. lia. }
  rewrite (Qfloor_comp _ _ Heq). symmetry. apply Zdiv_Qdiv.
Qed.

Lemma rem_div_nonneg (a b n : Z) :
  0 <= a -> 0 < b -> 0 < n -> Z.rem a (n * b) / b = (a / b) mod n.
Proof.
  intros Ha Hb Hn.
  rewrite Z.rem_mod_nonneg by lia.
  rewrite (Z.mul_comm n b).
  rewrite Z.rem_mul_r by lia.
  rewrite (Z.mul_comm b), Z.div_add by lia.
  rewrite Z.div_small, Z.add_0_l. reflexivity.
  apply Z.mod_pos_bound. lia.
Qed.

Lemma seconds_of_eq (mcs : Z) :
  seconds_of mcs = Z.rem mcs (60 * SECOND_TO_MS) / SECOND_TO_MS.
Proof. unfold seconds_of. apply floor_rem_div; reflexivity. Qed.

Lemma minutes_of_eq (mcs : Z) :
  minutes_of mcs = Z.rem mcs (60 * MINUTE_TO_MS) / MINUTE_TO_MS.
Proof. unfold minutes_of. apply floor_rem_div; reflexivity. Qed.

Lemma hours_of_eq (mcs : Z) : hours_of mcs = mcs / HOUR_TO_MS.
Proof. apply floor_div. Qed.

Lemma seconds_of_nonneg (mcs : Z) :
  0 <= mcs -> seconds_of mcs = (mcs / SECOND_TO_MS) mod 60.
Proof.
  intros H. rewrite seconds_of_eq. apply rem_div_nonneg; [exact H | reflexivity ..].
Qed.

Lemma minutes_of_nonneg (mcs : Z) :
  0 <= mcs -> minutes_of mcs = (mcs / MINUTE_TO_MS) mod 60.
Proof.
  intros H. rewrite minutes_of_eq. apply rem_div_nonneg; [exact H | reflexivity ..].
Qed.

(** A remaining time that is not negative is shown as its whole
    seconds, split into hours, minutes and seconds. *)
Lemma total_seconds_units (mcs : Z) :
  0 <= mcs ->
  total_seconds (mkTime (hours_of mcs) (minutes_of mcs) (seconds_of mcs))
  = mcs / SECOND_TO_MS.
Proof.
  intros H. unfold total_seconds.
  cbn [hours minutes seconds].
  rewrite hours_of_eq, minutes_of_nonneg, seconds_of_nonneg by exact H.
  unfold HOUR_TO_MS, MINUTE_TO_MS, SECOND_TO_MS.
  rewrite <- !Z.div_div by lia.
  set (q := mcs / 1000000).
  pose proof (Z.div_mod q 60 ltac:(lia)) as H1.
  pose proof (Z.div_mod (q / 60) 60 ltac:(lia)) as H2.
  lia.
Qed.

(** ** What [update()] leaves behind *)

Lemma update_paused (now : Z) (o : TimerObj) :
  isPaused (this o) = true -> update now o = o.
Proof. intros H. unfold update. now rewrite H. Qed.

Lemma update_this (now : Z) (o : TimerObj) :
  isPaused (this o) = false ->
  let mcs := Js.toNumber (finishTimestamp (this o)) - now in
  this (update now o)
  = mkTimer (Some mcs) (pauseTimestamp (this o)) (finishTimestamp (this o))
            (time (this o))
            (if mcs <=? 0 then STATE_STOP else state (this o)).
Proof.
  intros H. unfold update. rewrite H. simpl.
  destruct (_ <=? 0); reflexivity.
Qed.

Lemma update_shown (now : Z) (o : TimerObj) :
  isPaused (this o) = false ->
  let mcs := Js.toNumber (finishTimestamp (this o)) - now in
  shown (update now o)
  = mkTime (hours_of mcs) (minutes_of mcs) (seconds_of mcs).
Proof.
  intros H. unfold update. rewrite H.
  destruct (_ <=? 0); unfold shown, stop, assign, store, deref; simpl;
    rewrite !Pos.eqb_refl; reflexivity.
Qed.

Lemma update_other (now : Z) (o : TimerObj) (l : loc) :
  l <> time (this o) -> deref (heap (update now o)) l = deref (heap o) l.
Proof.
  intros Hl. unfold update. destruct (isPaused (this o)); [reflexivity|].
  destruct (_ <=? 0); unfold stop, assign, store, deref; simpl;
    destruct (Pos.eqb_spec l (time (this o))); try contradiction; reflexivity.
Qed.

Lemma stop_shown (o : TimerObj) : shown (stop o) = mkTime 0 0 0.
Proof.
  unfold stop, shown, assign, store, deref. simpl.
  rewrite !Pos.eqb_refl. reflexivity.
Qed.

Lemma update_expired_stops (now : Z) (o : TimerObj) :
  isPaused (this o) = false ->
  Js.toNumber (finishTimestamp (this o)) - now <= 0 ->
  state (this (update now o)) = STATE_STOP.
Proof.
  intros Hp Hle. rewrite update_this by exact Hp. simpl.
  destruct (Z.leb_spec (Js.toNumber (finishTimestamp (this o)) - now) 0);
    [reflexivity | lia].
Qed.

Lemma isPlaying_not_paused (t : Timer) :
  isPlaying t = true -> isPaused t = false.
Proof. unfold isPlaying, isPaused. destruct (state t); simpl; congruence. Qed.

Lemma isStopped_not_paused (t : Timer) :
  isStopped t = true -> isPaused t = false.
Proof. unfold isStopped, isPaused. destruct (state t); simpl; congruence. Qed.

(** [updatePanelLabel()] touches the label and the icon only. *)
Lemma updatePanelLabel_frame (text : option string) (w : Popup) :
  let w' := updatePanelLabel text w in
  timer w' = timer w /\ options_time w' = options_time w
  /\ timeout w' = timeout w /\ sources w' = sources w
  /\ next_source w' = next_source w /\ calls w' = calls w
  /\ playLabel w' = playLabel w.
Proof.
  unfold updatePanelLabel.
  destruct (truthy text); [| destruct (isStopped (this (timer w)))];
    repeat split; reflexivity.
Qed.

Lemma calls_updatePanelLabel (text : option string) (w : Popup) :
  calls (updatePanelLabel text w) = calls w.
Proof. apply (updatePanelLabel_frame text w). Qed.

Lemma timer_updatePanelLabel (text : option string) (w : Popup) :
  timer (updatePanelLabel text w) = timer w.
Proof. apply (updatePanelLabel_frame text w). Qed.

Lemma next_source_updatePanelLabel (text : option string) (w : Popup) :
  next_source (updatePanelLabel text w) = next_source w.
Proof. apply (updatePanelLabel_frame text w). Qed.

(** ** Expiry *)

(** C1.  A timer started on 00:00:01 at clock 0 is Playing; an
    [update()] half a second after its deadline computes a remaining time
    of -500000 and stops the timer, but the [Time] it leaves is
    -1:-1:-1 and not 00:00:00: the units are recomputed from the
    negative value after [stop()] has zeroed them. *)
Theorem update_past_deadline_leaves_negative_time :
  let o := start 0 0 (timer_of 0 0 1) in
  let o' := update 1500000 o in
  isPlaying (this o) = true
  /\ remaining o' = -500000
  /\ state (this o') = STATE_STOP
  /\ shown o' = mkTime (-1) (-1) (-1)
  /\ getFormatted (shown o') = "-1:-1:-1"%string.
Proof. vm_compute. repeat split; reflexivity. Qed.

(** The first variant of [update()] returns before the units are
    recomputed: past the deadline they stay as the last update before
    the deadline left them. *)
Example first_update_past_deadline_keeps_units :
  let t := fst (First.update 600000 (First.new_Timer 0 0 0 1)) in
  First.update 1500000 t
  = (First.mkTimer (Some (-500000)) None 1000000 (Some 0) (Some 0) (Some 0),
     First.RetFalse).
Proof. vm_compute. reflexivity. Qed.

(** The refresh callback on a timer whose deadline has passed: the
    callback stops the timer once more, which zeroes the [Time], shows
    "Done!", notifies once and returns [false]. *)
Lemma updateTimer_expired (now : Z) (w : Popup) :
  isPaused (this (timer w)) = false ->
  Js.toNumber (finishTimestamp (this (timer w))) - now <= 0 ->
  let (w', again) := updateTimer now w in
  again = false
  /\ state (this (timer w')) = STATE_STOP
  /\ shown (timer w') = mkTime 0 0 0
  /\ getFormatted (shown (timer w')) = "00:00:00"%string
  /\ panelLabel w' = "Done!"%string
  /\ calls w' = calls w ++ [CallTimer (OpUpdate now);
                            CallSourceRemove (timeout w);
                            CallTimer OpStop;
                            CallNotify "Done!"].
Proof.
  intros Hp Hle. unfold updateTimer.
  pose proof (update_expired_stops now (timer w) Hp Hle) as Hs.
  unfold call_timer at 1. cbn [timer with_timer perform].
  unfold isStopped. rewrite Hs. cbn [State_eqb].
  repeat split.
  - cbn. rewrite !Pos.eqb_refl. reflexivity.
  - cbn. rewrite !Pos.eqb_refl. reflexivity.
  - cbn. rewrite <- !app_assoc. reflexivity.
Qed.

(** The main loop dispatching the refresh source on an expired timer:
    one notification, and the source is gone afterwards. *)
Lemma dispatch_expired (id : nat) (now : Z) (w : Popup) :
  In id (sources w) ->
  isPaused (this (timer w)) = false ->
  Js.toNumber (finishTimestamp (this (timer w))) - now <= 0 ->
  let w' := dispatch id now w in
  ~ In id (sources w')
  /\ count_notify (calls w') = S (count_notify (calls w))
  /\ shown (timer w') = mkTime 0 0 0.
Proof.
  intros Hin Hp Hle. unfold dispatch.
  assert (Hex : existsb (Nat.eqb id) (sources w) = true).
  { apply existsb_exists. exists id. split; [exact Hin | apply Nat.eqb_refl]. }
  rewrite Hex.
  pose proof (updateTimer_expired now w Hp Hle) as H.
  destruct (updateTimer now w) as [w1 again].
  destruct H as (-> & _ & Hsh & _ & _ & Hc).
  cbn [sources with_sources calls timer]. split; [|split].
  - intros Hin'. apply filter_In in Hin'. destruct Hin' as [_ Hne].
    rewrite Nat.eqb_refl in Hne. discriminate.
  - rewrite Hc. unfold count_notify. rewrite filter_app, length_app.
    simpl. lia.
  - exact Hsh.
Qed.

(** ** Transitions called from any state *)

Lemma start_finishTimestamp (now0 now1 : Z) (o : TimerObj) :
  finishTimestamp (this (start now0 now1 o))
  = Some (now0 + SECOND_TO_MS * seconds (shown o)
               + MINUTE_TO_MS * minutes (shown o)
               + HOUR_TO_MS * hours (shown o)).
Proof. unfold start. rewrite update_this by reflexivity. reflexivity. Qed.

(** The claim of C2 fails on the code: [start()] on a Playing timer sets
    a new deadline, [pause()] on a Stopped timer makes it Paused and
    [resume()] on a Stopped timer makes it Playing. *)
Lemma start_while_playing_sets_new_deadline :
  let o := update 3500000 (start 0 0 (timer_of 0 0 5)) in
  isPlaying (this o) = true
  /\ finishTimestamp (this o) = Some 5000000
  /\ finishTimestamp (this (start 3500000 3500000 o)) = Some 4500000
  /\ this (start 3500000 3500000 o) <> this o
  /\ isStopped (this (timer_of 0 0 5)) = true
  /\ state (this (pause 7 (timer_of 0 0 5))) = STATE_PAUSE
  /\ state (this (resume 9 (timer_of 0 0 5))) = STATE_PLAY.
Proof.
  vm_compute. repeat split; try reflexivity. intros H. discriminate H.
Qed.

(** C2, as the code has it.  The operations of the [Timer] carry no
    guard on the state: from every state [pause()] records the instant
    and makes the timer Paused, [resume()] makes it Playing and
    [start()] sets the deadline to the clock plus the shown time.  The
    guard is in [handlePlayClick()]: it calls [pause()] alone on a
    Playing timer, [resume()] alone on a Paused timer, and begins with
    [setTime()] and [start()] on a Stopped timer only. *)
Theorem handlePlayClick_guards_transitions
    (w : Popup) (o : TimerObj) (now0 now1 now2 : Z) :
  let w' := handlePlayClick now0 now1 now2 w in
  (isPlaying (this (timer w)) = true ->
     timer w' = pause now0 (timer w)
     /\ calls w' = calls w ++ [CallTimer (OpPause now0)])
  /\ (isPaused (this (timer w)) = true ->
     timer w' = resume now0 (timer w)
     /\ calls w' = calls w ++ [CallTimer (OpResume now0)])
  /\ (isStopped (this (timer w)) = true ->
     exists rest,
       calls w' = calls w ++ CallTimer (OpSetTime (options_time w))
                          :: CallTimer (OpStart now0 now1) :: rest
       /\ Forall (fun c => match c with
                           | CallTimer (OpStart _ _) => False
                           | CallTimer (OpPause _) => False
                           | CallTimer (OpResume _) => False
                           | _ => True
                           end) rest)
  /\ (state (this (pause now0 o)) = STATE_PAUSE
      /\ pauseTimestamp (this (pause now0 o)) = Some now0)
  /\ state (this (resume now0 o)) = STATE_PLAY
  /\ finishTimestamp (this (start now0 now1 o))
     = Some (now0 + SECOND_TO_MS * seconds (shown o)
                  + MINUTE_TO_MS * minutes (shown o)
                  + HOUR_TO_MS * hours (shown o)).
Proof.
  cbv zeta. repeat match goal with |- _ /\ _ => split end;
    try reflexivity; try apply start_finishTimestamp.
  - intros Hp. unfold handlePlayClick.
    assert (Hs : isStopped (this (timer w)) = false).
    { revert Hp. unfold isPlaying, isStopped.
      destruct (state (this (timer w))); simpl; congruence. }
    rewrite Hs, Hp. split; reflexivity.
  - intros Hp. unfold handlePlayClick.
    assert (Hs : isStopped (this (timer w)) = false).
    { revert Hp. unfold isPaused, isStopped.
      destruct (state (this (timer w))); simpl; congruence. }
    assert (Hy : isPlaying (this (timer w)) = false).
    { revert Hp. unfold isPaused, isPlaying.
      destruct (state (this (timer w))); simpl; congruence. }
    rewrite Hs, Hy, Hp. split; reflexivity.
  - intros Hs. unfold handlePlayClick. rewrite Hs.
    unfold updateTimer.
    set (w2 := call_timer (OpStart now0 now1)
                 (call_timer (OpSetTime (options_time w)) w)).
    destruct (isStopped (this (timer (call_timer (OpUpdate now2) w2)))).
    + exists [CallTimer (OpUpdate now2); CallSourceRemove (timeout w2);
              CallTimer OpStop; CallNotify "Done!";
              CallTimeoutAdd 500 (next_source w2)].
      split.
      * cbn. rewrite <- !app_assoc. reflexivity.
      * repeat constructor.
    + exists [CallTimer (OpUpdate now2); CallTimeoutAdd 500 (next_source w2)].
      split.
      * cbn [fst timeout_add with_timeout with_playLabel with_sources called calls].
        rewrite calls_updatePanelLabel, next_source_updatePanelLabel.
        cbn -[perform]. rewrite <- !app_assoc. reflexivity.
      * repeat constructor.
Qed.

Lemma handlePlayClick_guards_transitions_witness :
  let w := handlePlayClick 0 0 0 (popup_of 0 0 5) in
  isPlaying (this (timer w)) = true
  /\ timer (handlePlayClick 2000000 2000000 2000000 w)
     = pause 2000000 (timer w)
  /\ calls (handlePlayClick 2000000 2000000 2000000 w)
     = calls w ++ [CallTimer (OpPause 2000000)].
Proof.
  split; [vm_compute; reflexivity |].
  apply (proj1 (handlePlayClick_guards_transitions
                  (handlePlayClick 0 0 0 (popup_of 0 0 5))
                  (timer_of 0 0 5) 2000000 2000000 2000000)).
  vm_compute. reflexivity.
Defined.

(** ** Range of the shown time *)

(** C3.  A timer started on 00:01:00 at clock 0 and updated 59.5 seconds
    after its deadline: the remaining time computed is negative, and
    the [Time] stored is -1:-1:-60, with negative components and
    seconds outside 0..59.  [stop()] had set the three fields to zero;
    [update()] goes on to overwrite them. *)
Theorem update_past_deadline_stores_negative_units :
  let o := start 0 0 (timer_of 0 1 0) in
  let o' := update 119500000 o in
  isPlaying (this o) = true
  /\ remaining o' = -59500000
  /\ shown o' = mkTime (-1) (-1) (-60)
  /\ getFormatted (shown o') = "-1:-1:-60"%string
  /\ shown (stop o) = mkTime 0 0 0.
Proof. vm_compute. repeat split; reflexivity. Qed.

(** Before the deadline the stored units are in range. *)
Lemma update_before_deadline_in_range (now : Z) (o : TimerObj) :
  isPaused (this o) = false ->
  0 <= Js.toNumber (finishTimestamp (this o)) - now ->
  let t := shown (update now o) in
  0 <= hours t /\ 0 <= minutes t < 60 /\ 0 <= seconds t < 60.
Proof.
  intros Hp Hle. cbv zeta. rewrite update_shown by exact Hp.
  cbn [hours minutes seconds].
  rewrite hours_of_eq, minutes_of_nonneg, seconds_of_nonneg by exact Hle.
  split; [apply Z.div_pos; [exact Hle | reflexivity] |].
  split; apply Z.mod_pos_bound; reflexivity.
Qed.

(** Past the deadline the stored hours are negative, whatever the state
    the timer was in. *)
Lemma update_past_deadline_negative_hours (now : Z) (o : TimerObj) :
  isPaused (this o) = false ->
  Js.toNumber (finishTimestamp (this o)) - now < 0 ->
  state (this (update now o)) = STATE_STOP
  /\ hours (shown (update now o)) < 0.
Proof.
  intros Hp Hlt. split.
  - apply update_expired_stops; [exact Hp | lia].
  - rewrite update_shown by exact Hp. cbn [hours]. rewrite hours_of_eq.
    apply Z.div_lt_upper_bound; [reflexivity | lia].
Qed.

(** ** Pausing *)

(** C4.  On a Playing timer, [pause()] at clock [p], [resume()] after a
    pause of [delta] and [update()] a further [e] later: [resume()] has
    moved the deadline by exactly [delta], and the remaining time, the
    shown [Time] and the state are those of an [update()] at [p + e]
    with no pause at all, whatever [delta] is. *)
Theorem pause_resume_excludes_paused_time (o : TimerObj) (p delta e : Z) :
  isPlaying (this o) = true ->
  0 <= delta ->
  let o' := resume (p + delta) (pause p o) in
  finishTimestamp (this o')
  = Some (Js.toNumber (finishTimestamp (this o)) + delta)
  /\ pauseTimestamp (this o') = None
  /\ remaining (update (p + delta + e) o')
     = Js.toNumber (finishTimestamp (this o)) - p - e
  /\ remaining (update (p + delta + e) o') = remaining (update (p + e) o)
  /\ shown (update (p + delta + e) o') = shown (update (p + e) o)
  /\ state (this (update (p + delta + e) o')) = state (this (update (p + e) o)).
Proof.
  intros Hplay Hdelta. cbv zeta.
  pose proof (isPlaying_not_paused _ Hplay) as Hnp.
  assert (Hst : state (this o) = STATE_PLAY).
  { revert Hplay. unfold isPlaying. destruct (state (this o)); simpl; congruence. }
  assert (Hf : finishTimestamp (this (resume (p + delta) (pause p o)))
               = Some (Js.toNumber (finishTimestamp (this o)) + delta)).
  { unfold resume, pause. cbn. f_equal. lia. }
  assert (Hnp' : isPaused (this (resume (p + delta) (pause p o))) = false)
    by reflexivity.
  assert (Hm : Js.toNumber (finishTimestamp (this (resume (p + delta) (pause p o))))
               - (p + delta + e)
               = Js.toNumber (finishTimestamp (this o)) - (p + e)).
  { rewrite Hf. cbn [Js.toNumber]. lia. }
  split; [exact Hf |]. split; [reflexivity |].
  unfold remaining.
  rewrite !update_shown, !update_this by assumption.
  cbv zeta. rewrite Hm. cbn [mcsLeft state Js.toNumber].
  repeat split; try lia.
  rewrite Hst. reflexivity.
Qed.

Lemma pause_resume_excludes_paused_time_witness :
  let o := start 0 0 (timer_of 0 0 5) in
  isPlaying (this o) = true
  /\ 0 <= 3600000000
  /\ remaining (update (1000000 + 3600000000 + 500000)
                  (resume (1000000 + 3600000000) (pause 1000000 o)))
     = remaining (update (1000000 + 500000) o).
Proof.
  split; [reflexivity |]. split; [lia |].
  apply (pause_resume_excludes_paused_time
           (start 0 0 (timer_of 0 0 5)) 1000000 3600000000 500000);
    [reflexivity | lia].
Defined.

(** ** Timestamps *)

(** The claim of C5 fails on the code: after [start()], [pause()] and
    [stop()] the timer is Stopped with both timestamps still set. *)
Lemma stop_keeps_both_timestamps :
  let o := stop (pause 2000000 (start 0 0 (timer_of 0 0 5))) in
  state (this o) = STATE_STOP
  /\ finishTimestamp (this o) = Some 5000000
  /\ pauseTimestamp (this o) = Some 2000000.
Proof. vm_compute. repeat split; reflexivity. Qed.

Lemma paused_has_pauseTimestamp (o : TimerObj) :
  reachable o ->
  state (this o) = STATE_PAUSE -> pauseTimestamp (this o) <> None.
Proof.
  induction 1 as [src h | op o Hr IH].
  - cbn. discriminate.
  - destruct op as [src | now0 now1 | now | now | | now]; cbn [perform].
    + exact IH.
    + unfold start. rewrite update_this by reflexivity. cbn.
      destruct (_ <=? 0); discriminate.
    + intros _. cbn. discriminate.
    + cbn. discriminate.
    + cbn. discriminate.
    + destruct (isPaused (this o)) eqn:Hp.
      * rewrite update_paused by exact Hp. exact IH.
      * rewrite update_this by exact Hp. cbn.
        destruct (_ <=? 0); [discriminate |].
        revert Hp. unfold isPaused.
        destruct (state (this o)); simpl; congruence.
Qed.

(** C5, as the code has it.  On every timer that the operations
    produce from a new one, a Paused state comes with a
    [pauseTimestamp]; [resume()] clears it; [stop()] makes the timer
    Stopped and zeroes the shown [Time], and leaves [finishTimestamp]
    and [pauseTimestamp] as they were. *)
Theorem timestamps_after_operations (o : TimerObj) (now : Z) :
  reachable o ->
  (state (this o) = STATE_PAUSE -> pauseTimestamp (this o) <> None)
  /\ pauseTimestamp (this (resume now o)) = None
  /\ state (this (stop o)) = STATE_STOP
  /\ shown (stop o) = mkTime 0 0 0
  /\ finishTimestamp (this (stop o)) = finishTimestamp (this o)
  /\ pauseTimestamp (this (stop o)) = pauseTimestamp (this o).
Proof.
  intros Hr. split; [exact (paused_has_pauseTimestamp o Hr) |].
  repeat split. apply stop_shown.
Qed.

Lemma timestamps_after_operations_witness :
  let o := pause 2000000 (start 0 0 (timer_of 0 0 5)) in
  reachable o
  /\ state (this o) = STATE_PAUSE
  /\ pauseTimestamp (this o) <> None.
Proof.
  assert (Hr : reachable (pause 2000000 (start 0 0 (timer_of 0 0 5)))).
  { apply (reach_op (OpPause 2000000)). apply (reach_op (OpStart 0 0)).
    exact (reach_new (fst (new_Time 0 0 5 empty_heap))
                     (snd (new_Time 0 0 5 empty_heap))). }
  split; [exact Hr |]. split; [reflexivity |].
  apply (proj1 (timestamps_after_operations
                  (pause 2000000 (start 0 0 (timer_of 0 0 5))) 0 Hr)).
  reflexivity.
Defined.

(** ** Successive updates *)

(** Each [update()] of a run, in terms of the clock reading it made. *)
Lemma updates_char (clock : list Z) :
  forall o,
    StronglySorted Z.le clock ->
    stopped_or_playing (state (this o))
                       (Js.toNumber (finishTimestamp (this o))) clock ->
    Forall2 (fun now o' =>
               remaining o' = Js.toNumber (finishTimestamp (this o)) - now
               /\ state (this o') = (if remaining o' <=? 0 then STATE_STOP
                                     else STATE_PLAY)
               /\ shown o' = mkTime (hours_of (remaining o'))
                                    (minutes_of (remaining o'))
                                    (seconds_of (remaining o')))
            clock (updates clock o).
Proof.
  induction clock as [| now rest IH]; intros o Hs Hst; cbn [updates].
  - constructor.
  - inversion Hs as [| ? ? Hs' Hall]; subst.
    assert (Hp : isPaused (this o) = false).
    { unfold isPaused. destruct Hst as [-> | [-> _]]; reflexivity. }
    set (f := Js.toNumber (finishTimestamp (this o))) in *.
    assert (Hrem : remaining (update now o) = f - now).
    { unfold remaining. rewrite update_this by exact Hp. reflexivity. }
    assert (Hstate : state (this (update now o))
                     = if f - now <=? 0 then STATE_STOP else STATE_PLAY).
    { rewrite update_this by exact Hp. cbn [state]. fold f.
      destruct (Z.leb_spec (f - now) 0) as [Hle | Hgt]; [reflexivity |].
      destruct Hst as [-> | [_ Hf]]; [reflexivity |].
      inversion Hf; subst. lia. }
    assert (Hfin : Js.toNumber (finishTimestamp (this (update now o))) = f).
    { rewrite update_this by exact Hp. reflexivity. }
    constructor.
    + rewrite Hrem. split; [reflexivity |]. split; [exact Hstate |].
      rewrite update_shown by exact Hp. reflexivity.
    + specialize (IH (update now o) Hs').
      rewrite Hfin in IH. apply IH.
      rewrite Hstate.
      destruct (Z.leb_spec (f - now) 0) as [Hle | Hgt]; [right | left; reflexivity].
      split; [reflexivity |].
      apply Forall_forall. intros x Hx.
      rewrite Forall_forall in Hall. specialize (Hall x Hx). lia.
Qed.

(** C6.  Successive [update()] calls on a Playing timer, at clock
    readings that do not decrease: every later call leaves a remaining
    time that is not greater than the one an earlier call left, and a
    shown time that is not greater while the timer plays; after each
    call the timer is Stopped exactly if the remaining time is not
    positive, and Playing otherwise; once Stopped it stays Stopped. *)
Theorem updates_run_down (o : TimerObj) (clock : list Z) :
  isPlaying (this o) = true ->
  StronglySorted Z.le clock ->
  StronglySorted runs_down (updates clock o)
  /\ Forall (fun o' => state (this o')
                       = if remaining o' <=? 0 then STATE_STOP else STATE_PLAY)
            (updates clock o)
  /\ Forall2 (fun now o' =>
                remaining o' = Js.toNumber (finishTimestamp (this o)) - now)
             clock (updates clock o).
Proof.
  intros Hplay Hs.
  assert (Hst : stopped_or_playing (state (this o))
                  (Js.toNumber (finishTimestamp (this o))) clock).
  { left. revert Hplay. unfold isPlaying.
    destruct (state (this o)); simpl; congruence. }
  pose proof (updates_char clock o Hs Hst) as Hc.
  set (f := Js.toNumber (finishTimestamp (this o))) in *.
  clearbody f. clear Hst Hplay.
  split; [| split].
  - induction Hc as [| now o' rest run (Hr & Hstate & Hsh) Hc IH].
    + constructor.
    + inversion Hs as [| ? ? Hs' Hall]; subst.
      constructor; [exact (IH Hs') |].
      clear IH Hs Hs'.
      induction Hc as [| now2 o2 rest run (Hr2 & Hstate2 & Hsh2) Hc IH2].
      * constructor.
      * inversion Hall as [| ? ? Hle Hall']; subst.
        constructor; [| exact (IH2 Hall')].
        unfold runs_down. rewrite Hstate, Hstate2, Hsh, Hsh2.
        assert (Hrr : remaining o2 <= remaining o') by lia.
        split; [exact Hrr |].
        destruct (Z.leb_spec (remaining o') 0) as [Ha | Ha];
          destruct (Z.leb_spec (remaining o2) 0) as [Hb | Hb];
          (split; [try reflexivity; try discriminate; try lia |]);
          try discriminate; try lia.
        intros _. rewrite !total_seconds_units by lia.
        apply Z.div_le_mono; [reflexivity | exact Hrr].
  - clear Hs. induction Hc as [| now o' rest run (Hr & Hstate & Hsh) Hc IH].
    + constructor.
    + constructor; assumption.
  - clear Hs. induction Hc as [| now o' rest run (Hr & Hstate & Hsh) Hc IH].
    + constructor.
    + constructor; assumption.
Qed.

Lemma updates_run_down_witness :
  let o := start 0 0 (timer_of 0 0 1) in
  isPlaying (this o) = true
  /\ StronglySorted Z.le [500000; 1000000; 1500000]
  /\ StronglySorted runs_down (updates [500000; 1000000; 1500000] o).
Proof.
  assert (Hs : StronglySorted Z.le [500000; 1000000; 1500000]).
  { repeat constructor; lia. }
  split; [reflexivity |]. split; [exact Hs |].
  apply (proj1 (updates_run_down (start 0 0 (timer_of 0 0 1))
                  [500000; 1000000; 1500000] eq_refl Hs)).
Defined.

(** ** Updates while paused *)

(** C7.  [update()] on a Paused timer returns the timer as it is, at
    every clock reading, so every call of a run leaves the same timer,
    store included.  In the variant whose [update()] returns a value, a
    paused timer is returned unchanged together with its [mcsLeft]. *)
Theorem update_paused_is_noop :
  (forall (o : TimerObj) (clock : list Z),
      isPaused (this o) = true ->
      Forall (fun o' => o' = o) (updates clock o)
      /\ Forall (fun o' => remaining o' = remaining o /\ shown o' = shown o)
                (updates clock o))
  /\ (forall (t : First.Timer) (now : Z),
         First.isPaused t = true ->
         First.update now t = (t, First.RetMcsLeft (First.mcsLeft t))
         /\ forall now', First.update now' (fst (First.update now t))
                         = First.update now t).
Proof.
  split.
  - intros o clock Hp.
    assert (H : Forall (fun o' => o' = o) (updates clock o)).
    { induction clock as [| now rest IH]; cbn [updates].
      - constructor.
      - rewrite update_paused by exact Hp. constructor; [reflexivity | exact IH]. }
    split; [exact H |].
    eapply Forall_impl; [| exact H]. intros o' ->. split; reflexivity.
  - intros t now Hp.
    assert (H : forall n, First.update n t = (t, First.RetMcsLeft (First.mcsLeft t))).
    { intros n. unfold First.update. rewrite Hp. reflexivity. }
    split; [apply H |]. intros now'. rewrite (H now). cbn [fst]. apply H.
Qed.

Lemma update_paused_is_noop_witness :
  let o := pause 2000000 (start 0 0 (timer_of 0 0 5)) in
  let t := First.pause 2000000
             (fst (First.update 1000000 (First.new_Timer 0 0 0 5))) in
  isPaused (this o) = true
  /\ Forall (fun o' => o' = o) (updates [2500000; 9000000] o)
  /\ First.isPaused t = true
  /\ First.update 9000000 t = (t, First.RetMcsLeft (Some 4000000)).
Proof.
  split; [reflexivity |]. split.
  - apply (proj1 update_paused_is_noop
             (pause 2000000 (start 0 0 (timer_of 0 0 5)))
             [2500000; 9000000] eq_refl).
  - split; [reflexivity |].
    apply (proj2 update_paused_is_noop
             (First.pause 2000000
                (fst (First.update 1000000 (First.new_Timer 0 0 0 5))))
             9000000 eq_refl).
Defined.

(** ** The shown units *)

(** The units of a remaining time that is not negative are the floor
    divisions of the specification, modulo 60. *)
Lemma units_floor_mod (r : Z) :
  0 <= r ->
  mkTime (hours_of r) (minutes_of r) (seconds_of r) = units_spec r.
Proof.
  intros Hr. unfold units_spec.
  rewrite hours_of_eq, minutes_of_nonneg, seconds_of_nonneg by exact Hr.
  reflexivity.
Qed.

(** Less than a second past the deadline the three units are -1. *)
Lemma units_just_past_deadline (r : Z) :
  - SECOND_TO_MS <= r < 0 ->
  mkTime (hours_of r) (minutes_of r) (seconds_of r) = mkTime (-1) (-1) (-1).
Proof.
  intros Hr. rewrite hours_of_eq, minutes_of_eq, seconds_of_eq.
  unfold HOUR_TO_MS, MINUTE_TO_MS, SECOND_TO_MS in *.
  assert (Hrem : forall b, 1000000 < b -> Z.rem r b = r).
  { intros b Hb. replace r with (- (- r)) by lia.
    rewrite Z.rem_opp_l by lia. rewrite Z.rem_small by lia. reflexivity. }
  assert (Hdiv : forall b, 1000000 <= b -> r / b = -1).
  { intros b Hb. symmetry. apply (Z.div_unique r b (-1) (r + b)); lia. }
  rewrite !Hrem by lia. rewrite !Hdiv by lia. reflexivity.
Qed.

Lemma units_of_configured (hh mm ss d : Z) :
  0 <= hh -> 0 <= mm <= 59 -> 0 <= ss <= 59 -> 0 <= d < SECOND_TO_MS ->
  units_spec (configured_mcs (mkTime hh mm ss) + d) = mkTime hh mm ss.
Proof.
  intros Hh Hm Hs Hd. unfold units_spec, configured_mcs.
  cbn [hours minutes seconds].
  unfold HOUR_TO_MS, MINUTE_TO_MS, SECOND_TO_MS in *.
  set (r := 1000000 * ss + 1000000 * 60 * mm + 1000000 * 60 * 60 * hh + d).
  assert (H1 : r / (1000000 * 60 * 60) = hh).
  { symmetry.
    apply (Z.div_unique r _ hh (1000000 * ss + 1000000 * 60 * mm + d)); lia. }
  assert (H2 : r / (1000000 * 60) = 60 * hh + mm).
  { symmetry. apply (Z.div_unique r _ (60 * hh + mm) (1000000 * ss + d)); lia. }
  assert (H3 : r / 1000000 = 3600 * hh + 60 * mm + ss).
  { symmetry. apply (Z.div_unique r _ (3600 * hh + 60 * mm + ss) d); lia. }
  rewrite H1, H2, H3.
  f_equal.
  - symmetry. apply (Z.mod_unique _ _ hh mm); lia.
  - symmetry. apply (Z.mod_unique _ _ (60 * hh + mm) ss); lia.
Qed.

(** [start()] on a configured time of [hh:mm:ss] followed by an
    [update()], the clock advancing by no more than one refresh
    interval from the first reading to the last: the remaining time
    computed lies within one interval below the configured duration.
    When it is not negative, the shown units are the specification's
    and show the configured time or one second less; with no advance of
    the clock they are the configured time.  When it is negative, they
    are -1 each. *)
Lemma start_then_update_before_deadline
    (o : TimerObj) (hh mm ss now0 now1 now2 : Z) :
  0 <= hh -> 0 <= mm <= 59 -> 0 <= ss <= 59 ->
  shown o = mkTime hh mm ss ->
  now0 <= now1 <= now2 -> now2 - now0 <= TICK ->
  let o' := update now2 (start now0 now1 o) in
  let r := remaining o' in
  configured_mcs (mkTime hh mm ss) - TICK <= r <= configured_mcs (mkTime hh mm ss)
  /\ (0 <= r ->
      shown o' = units_spec r
      /\ total_seconds (mkTime hh mm ss) - 1
         <= total_seconds (shown o') <= total_seconds (mkTime hh mm ss))
  /\ (r < 0 -> shown o' = mkTime (-1) (-1) (-1))
  /\ (now2 = now0 -> shown o' = mkTime hh mm ss).
Proof.
  intros Hh Hm Hs Hsh Hclock Htick. cbv zeta.
  assert (Hnp : isPaused (this (start now0 now1 o)) = false).
  { unfold start. rewrite update_this by reflexivity. cbn.
    destruct (_ <=? 0); reflexivity. }
  assert (Hr : remaining (update now2 (start now0 now1 o))
               = configured_mcs (mkTime hh mm ss) + (now0 - now2)).
  { unfold remaining. rewrite update_this by exact Hnp. cbn [mcsLeft].
    rewrite start_finishTimestamp, Hsh. unfold configured_mcs.
    cbn [Js.toNumber hours minutes seconds]. lia. }
  assert (Hu : shown (update now2 (start now0 now1 o))
               = mkTime (hours_of (remaining (update now2 (start now0 now1 o))))
                        (minutes_of (remaining (update now2 (start now0 now1 o))))
                        (seconds_of (remaining (update now2 (start now0 now1 o))))).
  { assert (Hrm : remaining (update now2 (start now0 now1 o))
                  = Js.toNumber (finishTimestamp (this (start now0 now1 o))) - now2).
    { unfold remaining. rewrite update_this by exact Hnp. reflexivity. }
    rewrite update_shown by exact Hnp. cbv zeta. rewrite Hrm. reflexivity. }
  assert (Hcfg : configured_mcs (mkTime hh mm ss)
                 = total_seconds (mkTime hh mm ss) * SECOND_TO_MS).
  { unfold configured_mcs, total_seconds, SECOND_TO_MS, MINUTE_TO_MS, HOUR_TO_MS.
    cbn [hours minutes seconds]. lia. }
  assert (H0 : 0 <= configured_mcs (mkTime hh mm ss)).
  { unfold configured_mcs, SECOND_TO_MS, MINUTE_TO_MS, HOUR_TO_MS.
    cbn [hours minutes seconds]. lia. }
  split; [unfold TICK in *; lia |].
  split; [| split].
  - intros Hpos. rewrite Hu. split; [apply units_floor_mod; exact Hpos |].
    rewrite total_seconds_units by exact Hpos.
    set (T := total_seconds (mkTime hh mm ss)) in *.
    rewrite Hr, Hcfg. unfold SECOND_TO_MS, TICK in *.
    split.
    + apply Z.div_le_lower_bound; lia.
    + apply Z.div_le_upper_bound; lia.
  - intros Hneg. rewrite Hu. apply units_just_past_deadline.
    unfold SECOND_TO_MS, TICK in *. lia.
  - intros ->. rewrite Hu, Hr.
    replace (now0 - now0) with 0 by lia.
    rewrite units_floor_mod by lia.
    apply units_of_configured; unfold SECOND_TO_MS; lia.
Qed.

(** C8.  [start()] on 00:00:00 with the clock advancing by one
    microsecond at each reading, then an [update()]: the remaining
    time computed is -2, one refresh interval from the configured
    duration at most, but the time shown is -1:-1:-1.  It is neither
    within an interval of 00:00:00 nor the units that the floor
    divisions modulo 60 give for -2; [update()] recomputes the units
    after [stop()] has set them to zero. *)
Theorem start_zero_duration_shows_negative_units :
  let o := update 2 (start 0 1 (timer_of 0 0 0)) in
  shown (timer_of 0 0 0) = mkTime 0 0 0
  /\ remaining o = -2
  /\ state (this o) = STATE_STOP
  /\ shown o = mkTime (-1) (-1) (-1)
  /\ getFormatted (shown o) = "-1:-1:-1"%string
  /\ units_spec (remaining o) = mkTime (-1) 59 59
  /\ shown (stop (start 0 1 (timer_of 0 0 0))) = mkTime 0 0 0.
Proof. vm_compute. repeat split; reflexivity. Qed.

(** ** Starting the refresh loop *)

(** The click handler of [src/extension.js] and the one of the popup
    with sliders are the same function. *)
Lemma handlePlayClick_same (now0 now1 now2 : Z) (w : Popup) :
  handlePlayClick now0 now1 now2 w = Sliders.handlePlayClick now0 now1 now2 w.
Proof.
  unfold handlePlayClick, Sliders.handlePlayClick, Sliders.startTimer,
    Sliders.startDisplayingTime, Sliders.updateTimer, updateTimer,
    Sliders.stopTimer, stopTimer, Sliders.stopDisplayingTime.
  reflexivity.
Qed.

Lemma startDisplayingTime_calls (now : Z) (w : Popup) :
  let done := isStopped (this (update now (timer w))) in
  let w' := Sliders.startDisplayingTime now w in
  calls w' = calls w ++ CallTimer (OpUpdate now)
                     :: (if done then [CallSourceRemove (timeout w);
                                       CallTimer OpStop;
                                       CallNotify "Done!"]
                         else [])
                     ++ [CallTimeoutAdd 500 (next_source w)]
  /\ panelLabel w' = (if done then "Done!"%string
                      else getFormatted (shown (update now (timer w))))
  /\ timeout w' = Some (next_source w)
  /\ In (next_source w) (sources w').
Proof.
  cbv zeta. unfold Sliders.startDisplayingTime, Sliders.updateTimer.
  change (timer (call_timer (OpUpdate now) w)) with (update now (timer w)).
  destruct (isStopped (this (update now (timer w)))) eqn:E; cbn [fst].
  - repeat split.
    + cbn -[perform]. rewrite <- !app_assoc. reflexivity.
    + cbn -[perform]. apply in_or_app. right. left. reflexivity.
  - unfold timeout_add.
    cbn [timeout with_timeout calls called with_sources panelLabel sources].
    rewrite calls_updatePanelLabel, next_source_updatePanelLabel.
    repeat split.
    + cbn -[perform]. rewrite <- !app_assoc. reflexivity.
    + unfold updatePanelLabel. cbn [truthy].
      change (timer (call_timer (OpUpdate now) w)) with (update now (timer w)).
      rewrite E. reflexivity.
    + apply in_or_app. right. left. reflexivity.
Qed.

(** C9.  Starting the refresh loop: [startDisplayingTime()] calls the
    timer's [update()] once, shows its result on the panel (the time,
    or "Done!" with one notification when the countdown is over) and
    only then registers the 500 ms source; nothing else is scheduled and
    no other [update()] is called.  The click on a Stopped timer in
    [src/extension.js] starts the loop in just this way, after
    [setTime()] and [start()]. *)
Theorem loop_start_updates_once_before_scheduling
    (w : Popup) (now0 now1 now2 : Z) :
  let loop_start (v : Popup) :=
    let done := isStopped (this (update now2 (timer v))) in
    let v' := Sliders.startDisplayingTime now2 v in
    exists shown_first,
      calls v' = calls v ++ CallTimer (OpUpdate now2) :: shown_first
                         ++ [CallTimeoutAdd 500 (next_source v)]
      /\ count_update shown_first = 0%nat
      /\ Forall (fun c => match c with
                          | CallTimeoutAdd _ _ => False
                          | _ => True
                          end) shown_first
      /\ panelLabel v' = (if done then "Done!"%string
                          else getFormatted (shown (update now2 (timer v)))) in
  loop_start w
  /\ (isStopped (this (timer w)) = true ->
      let w2 := call_timer (OpStart now0 now1)
                  (call_timer (OpSetTime (options_time w)) w) in
      handlePlayClick now0 now1 now2 w
      = with_playLabel
          (playStateLabelMap
             (state (this (timer (Sliders.startDisplayingTime now2 w2)))))
          (Sliders.startDisplayingTime now2 w2)
      /\ loop_start w2).
Proof.
  cbv zeta.
  assert (H : forall v,
             exists shown_first,
               calls (Sliders.startDisplayingTime now2 v)
               = calls v ++ CallTimer (OpUpdate now2) :: shown_first
                         ++ [CallTimeoutAdd 500 (next_source v)]
               /\ count_update shown_first = 0%nat
               /\ Forall (fun c => match c with
                                   | CallTimeoutAdd _ _ => False
                                   | _ => True
                                   end) shown_first
               /\ panelLabel (Sliders.startDisplayingTime now2 v)
                  = (if isStopped (this (update now2 (timer v)))
                     then "Done!"%string
                     else getFormatted (shown (update now2 (timer v))))).
  { intros v. destruct (startDisplayingTime_calls now2 v) as (Hc & Hl & _).
    eexists. split; [exact Hc |]. split; [| split; [| exact Hl]].
    - destruct (isStopped _); reflexivity.
    - destruct (isStopped _); repeat constructor. }
  split; [apply H |].
  intros Hs. split; [| apply H].
  rewrite handlePlayClick_same. unfold Sliders.handlePlayClick.
  rewrite Hs. unfold Sliders.startTimer. reflexivity.
Qed.

Lemma loop_start_updates_once_before_scheduling_witness :
  let w := popup_of 0 0 5 in
  isStopped (this (timer w)) = true
  /\ handlePlayClick 0 0 0 w
     = with_playLabel
         (playStateLabelMap
            (state (this (timer (Sliders.startDisplayingTime 0
               (call_timer (OpStart 0 0)
                  (call_timer (OpSetTime (options_time w)) w)))))))
         (Sliders.startDisplayingTime 0
            (call_timer (OpStart 0 0)
               (call_timer (OpSetTime (options_time w)) w))).
Proof.
  split; [reflexivity |].
  apply (proj2 (loop_start_updates_once_before_scheduling (popup_of 0 0 5) 0 0 0)).
  reflexivity.
Defined.

(** A click on a Stopped popup configured to 00:00:05, at clock 0:
    the calls it makes, and the panel right after. *)
Example click_start_5s :
  let w := handlePlayClick 0 0 0 (popup_of 0 0 5) in
  calls w = [CallTimer (OpSetTime 1%positive); CallTimer (OpStart 0 0);
             CallTimer (OpUpdate 0); CallTimeoutAdd 500 1%nat]
  /\ panelLabel w = "00:00:05"%string
  /\ playLabel w = "Pause"%string
  /\ sources w = [1%nat].
Proof. vm_compute. repeat split; reflexivity. Qed.

(** A click on a Stopped popup configured to 00:00:00, the clock
    advancing between the readings: the countdown is over within the
    click, which notifies and then registers the source all the same;
    the first dispatch of the source notifies once more. *)
Example click_start_zero_duration :
  let w := handlePlayClick 0 1 2 (popup_of 0 0 0) in
  count_notify (calls w) = 1%nat
  /\ sources w = [1%nat]
  /\ count_notify (calls (dispatch 1 500002 w)) = 2%nat
  /\ sources (dispatch 1 500002 w) = [].
Proof. vm_compute. repeat split; reflexivity. Qed.

(** ** The configured time is a copy *)

Lemma setTime_fresh (src l : loc) (o : TimerObj) :
  allocated (heap o) l ->
  time (this (setTime src o)) <> l /\ allocated (heap (setTime src o)) l.
Proof.
  intros Hl. unfold setTime, new_Time, allocated in *. cbn.
  split; lia.
Qed.

Lemma setTime_copies (src : loc) (o : TimerObj) :
  shown (setTime src o) = deref (heap o) src.
Proof.
  unfold setTime, new_Time, shown, deref. cbn. rewrite Pos.eqb_refl.
  destruct (cells (heap o) src); reflexivity.
Qed.

(** Apart from [setTime()], an operation reads the store at the timer's
    own [Time] only. *)
Lemma perform_agree (op : Op) (a b : TimerObj) :
  is_setTime op = false -> agree a b -> agree (perform op a) (perform op b).
Proof.
  intros Hop [Ht Hs].
  assert (Hupd : forall now a b, agree a b -> agree (update now a) (update now b)).
  { clear. intros now a b [Ht Hs]. unfold agree.
    destruct (isPaused (this a)) eqn:Hp.
    - rewrite (update_paused now a Hp).
      rewrite Ht in Hp. rewrite (update_paused now b Hp). split; assumption.
    - rewrite (update_this now a Hp), (update_shown now a Hp).
      rewrite Ht in Hp. rewrite (update_this now b Hp), (update_shown now b Hp).
      rewrite Ht. split; reflexivity. }
  destruct op as [src | now0 now1 | now | now | | now];
    cbn [perform]; try discriminate.
  - unfold start. apply Hupd. unfold agree, shown in *. cbn.
    rewrite Hs, Ht. split; reflexivity.
  - unfold agree, pause, shown in *. cbn.
    split; [rewrite Ht; reflexivity | exact Hs].
  - unfold agree, resume, shown in *. cbn.
    split; [rewrite Ht; reflexivity | exact Hs].
  - unfold agree. rewrite !stop_shown. unfold stop. cbn. rewrite Ht.
    split; reflexivity.
  - apply Hupd. split; assumption.
Qed.

Lemma perform_all_agree (ops : list Op) :
  forall a b,
    forallb (fun op => negb (is_setTime op)) ops = true ->
    agree a b -> agree (perform_all ops a) (perform_all ops b).
Proof.
  induction ops as [| op rest IH]; intros a b Hops Hab; cbn.
  - exact Hab.
  - cbn in Hops. apply andb_prop in Hops. destruct Hops as [Hop Hrest].
    apply IH; [exact Hrest |].
    apply perform_agree; [| exact Hab].
    destruct (is_setTime op); [discriminate | reflexivity].
Qed.

(** A slider moving writes [options.time] and the panel, nothing of a
    timer whose [time] is another object. *)
Lemma handleTimeInput_agree (sl : Sliders.Sliders) (w : Popup) :
  time (this (timer w)) <> options_time w ->
  agree (timer (Sliders.handleTimeInput sl w)) (timer w).
Proof.
  intros Hne. unfold Sliders.handleTimeInput.
  rewrite timer_updatePanelLabel. cbn [timer with_timer].
  unfold agree, shown. cbn [this heap].
  split; [reflexivity |].
  rewrite !deref_assign_other by exact Hne. reflexivity.
Qed.

(** C10.  [setTime()] makes the timer's [time] a new object holding the
    three fields of its argument.  So after [startTimer()] the timer's
    [time] is not [options.time], and a slider input, which writes
    [options.time], changes no field of the timer (its deadline
    included) and not its shown [Time]; every run of [update()],
    [pause()], [resume()], [stop()] and [start()] from there gives the
    timer it would have given without the slider input. *)
Theorem setTime_takes_a_snapshot
    (w : Popup) (now0 now1 now2 : Z) (sl : Sliders.Sliders) (ops : list Op) :
  allocated (heap (timer w)) (options_time w) ->
  forallb (fun op => negb (is_setTime op)) ops = true ->
  let w1 := Sliders.startTimer now0 now1 now2 w in
  let w2 := Sliders.handleTimeInput sl w1 in
  shown (setTime (options_time w) (timer w))
  = deref (heap (timer w)) (options_time w)
  /\ time (this (timer w1)) <> options_time w1
  /\ this (timer w2) = this (timer w1)
  /\ shown (timer w2) = shown (timer w1)
  /\ agree (perform_all ops (timer w2)) (perform_all ops (timer w1)).
Proof.
  intros Halloc Hops. cbv zeta.
  assert (Hne : time (this (timer (Sliders.startTimer now0 now1 now2 w)))
                <> options_time (Sliders.startTimer now0 now1 now2 w)).
  { unfold Sliders.startTimer, Sliders.startDisplayingTime.
    set (w0 := call_timer (OpStart now0 now1)
                 (call_timer (OpSetTime (options_time w)) w)).
    assert (H0 : time (this (timer w0)) <> options_time w0).
    { unfold w0, call_timer. cbn [timer with_timer options_time called perform].
      unfold start. rewrite update_this by reflexivity. cbn [time set_state set_finishTimestamp this].
      apply (setTime_fresh (options_time w) (options_time w) (timer w) Halloc). }
    assert (H1 : forall v, time (this (timer (fst (Sliders.updateTimer now2 v))))
                           = time (this (timer v))
                           /\ options_time (fst (Sliders.updateTimer now2 v))
                              = options_time v).
    { intros v. unfold Sliders.updateTimer.
      change (timer (call_timer (OpUpdate now2) v)) with (update now2 (timer v)).
      assert (Ht : time (this (update now2 (timer v))) = time (this (timer v))).
      { destruct (isPaused (this (timer v))) eqn:Hp.
        - rewrite update_paused by exact Hp. reflexivity.
        - rewrite update_this by exact Hp. reflexivity. }
      destruct (isStopped (this (update now2 (timer v)))); cbn [fst].
      - unfold notify, Sliders.stopTimer.
        cbn [timer options_time called with_playLabel].
        rewrite timer_updatePanelLabel.
        rewrite (proj1 (proj2 (updatePanelLabel_frame _ _))).
        cbn -[update]. split; [exact Ht | reflexivity].
      - rewrite timer_updatePanelLabel.
        rewrite (proj1 (proj2 (updatePanelLabel_frame _ _))).
        cbn -[update]. split; [exact Ht | reflexivity]. }
    destruct (H1 w0) as [Ha Hb].
    unfold timeout_add. cbn [timer options_time with_timeout with_sources called].
    rewrite Ha, Hb. exact H0. }
  pose proof (handleTimeInput_agree sl _ Hne) as [Ht Hs].
  split; [apply setTime_copies |].
  split; [exact Hne |].
  split; [exact Ht |].
  split; [exact Hs |].
  apply perform_all_agree; [exact Hops | split; assumption].
Qed.

Lemma setTime_takes_a_snapshot_witness :
  let w1 := Sliders.startTimer 0 0 0 (popup_of 0 0 5) in
  let w2 := Sliders.handleTimeInput (Sliders.mkSliders 1%float 0.5%float 0%float) w1 in
  allocated (heap (timer (popup_of 0 0 5))) (options_time (popup_of 0 0 5))
  /\ deref (heap (timer w2)) (options_time w2) = mkTime 10 30 0
  /\ agree (perform_all [OpUpdate 1500000; OpPause 2000000] (timer w2))
           (perform_all [OpUpdate 1500000; OpPause 2000000] (timer w1)).
Proof.
  assert (Ha : allocated (heap (timer (popup_of 0 0 5)))
                         (options_time (popup_of 0 0 5))).
  { unfold allocated. vm_compute. reflexivity. }
  split; [exact Ha |]. split; [vm_compute; reflexivity |].
  apply (setTime_takes_a_snapshot (popup_of 0 0 5) 0 0 0
           (Sliders.mkSliders 1%float 0.5%float 0%float)
           [OpUpdate 1500000; OpPause 2000000] Ha eq_refl).
Defined.

(** * Further properties *)

(** ** The formatted time *)

Lemma below_100_cases (P : Z -> Prop) :
  (forall k, (k < 100)%nat -> P (Z.of_nat k)) ->
  forall n, 0 <= n <= 99 -> P n.
Proof.
  intros H n Hn. rewrite <- (Z2Nat.id n) by lia. apply H. lia.
Qed.

Lemma padStart_two_digits (n : Z) :
  0 <= n <= 99 -> Js.padStart 2 "0" (Js.String_ n) = two_digits n.
Proof.
  revert n. apply below_100_cases. intros k Hk.
  assert (Hall : forallb (fun k => String.eqb
                            (Js.padStart 2 "0" (Js.String_ (Z.of_nat k)))
                            (two_digits (Z.of_nat k)))
                         (seq 0 100) = true) by (vm_compute; reflexivity).
  rewrite forallb_forall in Hall.
  apply String.eqb_eq. apply Hall. apply in_seq. lia.
Qed.

Lemma parse2_two_digits (n : Z) :
  0 <= n <= 99 ->
  parse2 (digit_char (n / 10)) (digit_char (n mod 10)) = n.
Proof.
  revert n. apply below_100_cases. intros k Hk.
  assert (Hall : forallb (fun k => Z.eqb
                            (parse2 (digit_char (Z.of_nat k / 10))
                                    (digit_char (Z.of_nat k mod 10)))
                            (Z.of_nat k))
                         (seq 0 100) = true) by (vm_compute; reflexivity).
  rewrite forallb_forall in Hall.
  apply Z.eqb_eq. apply Hall. apply in_seq. lia.
Qed.

Lemma getFormatted_closed (t : Time) :
  in_two_digits t ->
  getFormatted t
  = (two_digits (hours t) ++ ":" ++ two_digits (minutes t)
     ++ ":" ++ two_digits (seconds t))%string.
Proof.
  intros (Hh & Hm & Hs). unfold getFormatted.
  rewrite !padStart_two_digits by assumption. reflexivity.
Qed.

(** X1.  A [Time] whose three fields lie between 0 and 99 is formatted
    as eight characters, two digits for each field with colons
    between; two such times with the same text are the same time. *)
Theorem getFormatted_two_digits (t u : Time) :
  in_two_digits t -> in_two_digits u ->
  String.length (getFormatted t) = 8%nat
  /\ getFormatted t
     = (two_digits (hours t) ++ ":" ++ two_digits (minutes t)
        ++ ":" ++ two_digits (seconds t))%string
  /\ (getFormatted t = getFormatted u -> t = u).
Proof.
  intros Ht Hu.
  rewrite (getFormatted_closed t Ht), (getFormatted_closed u Hu).
  split; [reflexivity |]. split; [reflexivity |].
  unfold two_digits. cbn [append]. intros E.
  injection E as E1 E2 E3 E4 E5 E6.
  destruct Ht as (Hh & Hm & Hs), Hu as (Hh' & Hm' & Hs').
  destruct t as [h m s], u as [h' m' s']. cbn [hours minutes seconds] in *.
  rewrite <- (parse2_two_digits h), <- (parse2_two_digits m),
    <- (parse2_two_digits s) by assumption.
  rewrite E1, E2, E3, E4, E5, E6.
  rewrite !parse2_two_digits by assumption. reflexivity.
Qed.

Lemma getFormatted_two_digits_witness :
  in_two_digits (mkTime 0 40 0) /\ in_two_digits (mkTime 1 5 59)
  /\ getFormatted (mkTime 1 5 59) = "01:05:59"%string.
Proof.
  assert (Ht : in_two_digits (mkTime 1 5 59)) by (unfold in_two_digits; simpl; lia).
  assert (Hu : in_two_digits (mkTime 0 40 0)) by (unfold in_two_digits; simpl; lia).
  split; [exact Hu |]. split; [exact Ht |].
  exact (proj1 (proj2 (getFormatted_two_digits (mkTime 1 5 59) (mkTime 0 40 0) Ht Hu))).
Defined.

(** ** The timer before its deadline *)

Lemma configured_mcs_total (t : Time) :
  configured_mcs t = total_seconds t * SECOND_TO_MS.
Proof.
  unfold configured_mcs, total_seconds, SECOND_TO_MS, MINUTE_TO_MS, HOUR_TO_MS.
  lia.
Qed.

Lemma units_in_range (r : Z) :
  0 <= r ->
  0 <= hours_of r /\ 0 <= minutes_of r < 60 /\ 0 <= seconds_of r < 60.
Proof.
  intros Hr.
  rewrite hours_of_eq, minutes_of_nonneg, seconds_of_nonneg by exact Hr.
  split; [apply Z.div_pos; [exact Hr | reflexivity] |].
  split; apply Z.mod_pos_bound; reflexivity.
Qed.

(** X2.  [update()] on a timer that is not Paused, at a clock reading
    not past the deadline: the hours stored are not negative, the
    minutes and seconds lie in 0..59, and the three together are the
    whole seconds of the remaining time, rounded down; the state stays
    as it was unless the remaining time is zero. *)
Theorem update_before_deadline_units (now : Z) (o : TimerObj) :
  isPaused (this o) = false ->
  0 <= Js.toNumber (finishTimestamp (this o)) - now ->
  let r := Js.toNumber (finishTimestamp (this o)) - now in
  let t := shown (update now o) in
  remaining (update now o) = r
  /\ 0 <= hours t /\ 0 <= minutes t < 60 /\ 0 <= seconds t < 60
  /\ total_seconds t = r / SECOND_TO_MS
  /\ total_seconds t * SECOND_TO_MS <= r < (total_seconds t + 1) * SECOND_TO_MS
  /\ (0 < r -> state (this (update now o)) = state (this o)).
Proof.
  intros Hp Hr. cbv zeta.
  set (r := Js.toNumber (finishTimestamp (this o)) - now) in *.
  rewrite update_shown by exact Hp. fold r.
  destruct (units_in_range r Hr) as (Hh & Hm & Hs).
  pose proof (total_seconds_units r Hr) as Ht.
  split; [unfold remaining; rewrite update_this by exact Hp; reflexivity |].
  cbn [hours minutes seconds].
  split; [exact Hh |]. split; [exact Hm |]. split; [exact Hs |].
  split; [exact Ht |]. split.
  - rewrite Ht. unfold SECOND_TO_MS.
    pose proof (Z.div_mod r 1000000 ltac:(lia)) as Hd.
    pose proof (Z.mod_pos_bound r 1000000 ltac:(lia)) as Hb. lia.
  - intros Hpos. rewrite update_this by exact Hp. cbn [state]. fold r.
    destruct (Z.leb_spec r 0); [lia | reflexivity].
Qed.

Lemma update_before_deadline_units_witness :
  let o := start 0 0 (timer_of 1 30 5) in
  isPaused (this o) = false
  /\ 0 <= Js.toNumber (finishTimestamp (this o)) - 2500000
  /\ total_seconds (shown (update 2500000 o)) = 5402.
Proof.
  split; [reflexivity |]. split; [vm_compute; discriminate |].
  exact (proj1 (proj2 (proj2 (proj2 (proj2
           (update_before_deadline_units 2500000 (start 0 0 (timer_of 1 30 5))
              eq_refl ltac:(vm_compute; discriminate))))))).
Defined.

(** X3.  What [update()] leaves alone: the deadline, the pause
    instant and the reference [time] stay as they are, as does every
    [Time] object other than the timer's own; and the state stays, or
    becomes Stopped, so that a Stopped timer is never set going and a
    Paused one never released by an update. *)
Theorem update_leaves_alone (now : Z) (o : TimerObj) (l : loc) :
  l <> time (this o) ->
  finishTimestamp (this (update now o)) = finishTimestamp (this o)
  /\ pauseTimestamp (this (update now o)) = pauseTimestamp (this o)
  /\ time (this (update now o)) = time (this o)
  /\ next (heap (update now o)) = next (heap o)
  /\ deref (heap (update now o)) l = deref (heap o) l
  /\ (state (this (update now o)) = state (this o)
      \/ state (this (update now o)) = STATE_STOP)
  /\ (state (this o) = STATE_STOP -> state (this (update now o)) = STATE_STOP)
  /\ (state (this o) = STATE_PAUSE -> state (this (update now o)) = STATE_PAUSE).
Proof.
  intros Hl.
  assert (Hnext : next (heap (update now o)) = next (heap o)).
  { unfold update. destruct (isPaused (this o)); [reflexivity |].
    destruct (_ <=? 0); reflexivity. }
  destruct (isPaused (this o)) eqn:Hp.
  - rewrite update_paused by exact Hp.
    repeat split; try reflexivity; try (left; reflexivity); auto.
  - rewrite update_other by exact Hl.
    rewrite update_this by exact Hp. cbn.
    repeat split; try reflexivity; try exact Hnext.
    + destruct (_ <=? 0); [right | left]; reflexivity.
    + intros ->. destruct (_ <=? 0); reflexivity.
    + intros Hs. revert Hp. unfold isPaused. rewrite Hs. discriminate.
Qed.

Lemma update_leaves_alone_witness :
  let w := handlePlayClick 0 0 0 (popup_of 0 0 5) in
  options_time w <> time (this (timer w))
  /\ deref (heap (update 3000000 (timer w))) (options_time w) = mkTime 0 0 5.
Proof.
  assert (Hne : options_time (handlePlayClick 0 0 0 (popup_of 0 0 5))
                <> time (this (timer (handlePlayClick 0 0 0 (popup_of 0 0 5)))))
    by (vm_compute; discriminate).
  split; [exact Hne |].
  exact (proj1 (proj2 (proj2 (proj2 (proj2
           (update_leaves_alone 3000000
              (timer (handlePlayClick 0 0 0 (popup_of 0 0 5)))
              (options_time (handlePlayClick 0 0 0 (popup_of 0 0 5))) Hne)))))).
Defined.

(** ** Starting *)

(** X4.  [start()] on a shown time with no negative field, the clock
    not running backwards between its two readings: the deadline is
    the first reading plus the duration the fields stand for; the
    timer comes out Stopped when that duration has already passed at
    the second reading (so at once for 00:00:00) and Playing
    otherwise; and with no advance of the clock the time shown has
    the same whole seconds with minutes and seconds carried into
    0..59, whatever fields above 59 it was started on. *)
Theorem start_sets_deadline_and_normalizes (now0 now1 : Z) (o : TimerObj) :
  0 <= hours (shown o) -> 0 <= minutes (shown o) -> 0 <= seconds (shown o) ->
  now0 <= now1 ->
  let d := configured_mcs (shown o) in
  let o' := start now0 now1 o in
  finishTimestamp (this o') = Some (now0 + d)
  /\ remaining o' = d - (now1 - now0)
  /\ state (this o') = (if d <=? now1 - now0 then STATE_STOP else STATE_PLAY)
  /\ (now1 = now0 ->
      total_seconds (shown o') = total_seconds (shown o)
      /\ 0 <= hours (shown o')
      /\ 0 <= minutes (shown o') < 60 /\ 0 <= seconds (shown o') < 60).
Proof.
  intros Hh Hm Hs Hclock. cbv zeta.
  assert (Hf : finishTimestamp (this (start now0 now1 o))
               = Some (now0 + configured_mcs (shown o))).
  { rewrite start_finishTimestamp. unfold configured_mcs. f_equal. lia. }
  assert (Hr : remaining (start now0 now1 o)
               = configured_mcs (shown o) - (now1 - now0)).
  { unfold remaining, start. rewrite update_this by reflexivity.
    cbn [mcsLeft this finishTimestamp set_state set_finishTimestamp Js.toNumber].
    unfold configured_mcs. lia. }
  split; [exact Hf |]. split; [exact Hr |]. split.
  - unfold start. rewrite update_this by reflexivity.
    cbn [state this finishTimestamp set_state set_finishTimestamp Js.toNumber].
    unfold configured_mcs.
    destruct (Z.leb_spec (now0 + SECOND_TO_MS * seconds (shown o)
                          + MINUTE_TO_MS * minutes (shown o)
                          + HOUR_TO_MS * hours (shown o) - now1) 0);
      destruct (Z.leb_spec (SECOND_TO_MS * seconds (shown o)
                            + MINUTE_TO_MS * minutes (shown o)
                            + HOUR_TO_MS * hours (shown o)) (now1 - now0));
      try reflexivity; lia.
  - intros ->.
    assert (Hd : 0 <= configured_mcs (shown o)).
    { unfold configured_mcs, SECOND_TO_MS, MINUTE_TO_MS, HOUR_TO_MS. lia. }
    assert (Hsh : shown (start now0 now0 o)
                  = mkTime (hours_of (configured_mcs (shown o)))
                           (minutes_of (configured_mcs (shown o)))
                           (seconds_of (configured_mcs (shown o)))).
    { unfold start. rewrite update_shown by reflexivity.
      cbn [this finishTimestamp set_state set_finishTimestamp Js.toNumber].
      replace (now0 + SECOND_TO_MS * seconds (shown o)
               + MINUTE_TO_MS * minutes (shown o)
               + HOUR_TO_MS * hours (shown o) - now0)
        with (configured_mcs (shown o)) by (unfold configured_mcs; lia).
      reflexivity. }
    rewrite Hsh. split.
    + rewrite total_seconds_units by exact Hd.
      rewrite configured_mcs_total. apply Z.div_mul. discriminate.
    + cbn [hours minutes seconds]. apply units_in_range. exact Hd.
Qed.

Lemma start_sets_deadline_and_normalizes_witness :
  let o := timer_of 0 60 60 in
  0 <= hours (shown o) /\ 0 <= minutes (shown o) /\ 0 <= seconds (shown o)
  /\ 7 <= 7
  /\ finishTimestamp (this (start 7 7 o)) = Some (7 + 3660000000)
  /\ shown (start 7 7 o) = mkTime 1 1 0.
Proof.
  split; [vm_compute; discriminate |]. split; [vm_compute; discriminate |].
  split; [vm_compute; discriminate |]. split; [lia |].
  split; [| vm_compute; reflexivity].
  exact (proj1 (start_sets_deadline_and_normalizes 7 7 (timer_of 0 60 60)
                  ltac:(vm_compute; discriminate) ltac:(vm_compute; discriminate)
                  ltac:(vm_compute; discriminate) ltac:(lia))).
Defined.

(** ** Several pauses *)

Lemma pause_cycles_char (cycles : list (Z * Z)) :
  forall o,
    cycles <> [] ->
    this (pause_cycles cycles o)
    = mkTimer (mcsLeft (this o)) None
              (Some (Js.toNumber (finishTimestamp (this o)) + sum_pauses cycles))
              (time (this o)) STATE_PLAY
    /\ heap (pause_cycles cycles o) = heap o.
Proof.
  induction cycles as [| [p delta] rest IH]; intros o Hne; [contradiction |].
  cbn [pause_cycles sum_pauses fold_right snd].
  assert (Hone : this (resume (p + delta) (pause p o))
                 = mkTimer (mcsLeft (this o)) None
                           (Some (Js.toNumber (finishTimestamp (this o)) + delta))
                           (time (this o)) STATE_PLAY
                 /\ heap (resume (p + delta) (pause p o)) = heap o).
  { unfold resume, pause, set_state, set_pauseTimestamp, set_finishTimestamp.
    cbn [this heap finishTimestamp pauseTimestamp mcsLeft time state Js.toNumber].
    split; [| reflexivity]. f_equal. f_equal. lia. }
  destruct Hone as [Hone Hheap].
  destruct rest as [| c rest'].
  - cbn [pause_cycles fold_right]. rewrite Hone, Hheap.
    split; [| reflexivity]. f_equal. f_equal. lia.
  - destruct (IH (resume (p + delta) (pause p o)) ltac:(discriminate)) as [Ht Hh].
    rewrite Ht, Hh, Hone, Hheap.
    cbn [mcsLeft finishTimestamp time Js.toNumber].
    split; [| reflexivity]. f_equal. f_equal.
    fold (sum_pauses (c :: rest')). lia.
Qed.

(** X5.  Pauses add up.  After one or more [pause()]/[resume()] pairs
    the deadline has moved by the sum of the pause lengths, the timer
    is Playing with no pause instant and the shown [Time] is untouched;
    an [update()] at clock [now] then computes the remaining time of an
    unpaused timer at [now] less all the paused time. *)
Theorem pause_cycles_add_up (cycles : list (Z * Z)) (o : TimerObj) (now : Z) :
  cycles <> [] ->
  let o' := pause_cycles cycles o in
  finishTimestamp (this o')
  = Some (Js.toNumber (finishTimestamp (this o)) + sum_pauses cycles)
  /\ pauseTimestamp (this o') = None
  /\ state (this o') = STATE_PLAY
  /\ shown o' = shown o
  /\ remaining (update now o')
     = Js.toNumber (finishTimestamp (this o)) - (now - sum_pauses cycles).
Proof.
  intros Hne. cbv zeta.
  destruct (pause_cycles_char cycles o Hne) as [Ht Hh].
  unfold shown, remaining.
  rewrite update_this by (unfold isPaused; rewrite Ht; reflexivity).
  rewrite Ht, Hh. cbn. repeat split. lia.
Qed.

Lemma pause_cycles_add_up_witness :
  let o := start 0 0 (timer_of 0 0 5) in
  [(1000000, 60000000); (62000000, 10000000)] <> []
  /\ remaining (update 73000000
                  (pause_cycles [(1000000, 60000000); (62000000, 10000000)] o))
     = 5000000 - (73000000 - 70000000).
Proof.
  split; [discriminate |].
  exact (proj2 (proj2 (proj2 (proj2
           (pause_cycles_add_up [(1000000, 60000000); (62000000, 10000000)]
              (start 0 0 (timer_of 0 0 5)) 73000000 ltac:(discriminate)))))).
Defined.

(** ** The refresh callback *)

Lemma updateTimer_timer (now : Z) (w : Popup) :
  timer (fst (updateTimer now w))
  = (if isStopped (this (update now (timer w))) then stop (update now (timer w))
     else update now (timer w))
  /\ options_time (fst (updateTimer now w)) = options_time w
  /\ next_source (fst (updateTimer now w)) = next_source w
  /\ timeout (fst (updateTimer now w)) = timeout w.
Proof.
  unfold updateTimer.
  change (timer (call_timer (OpUpdate now) w)) with (update now (timer w)).
  destruct (isStopped (this (update now (timer w)))); cbn [fst].
  - unfold notify, stopTimer.
    cbn [timer options_time next_source timeout called with_playLabel].
    destruct (updatePanelLabel_frame (Some "Done!"%string)
                (call_timer OpStop
                   (source_remove (timeout (call_timer (OpUpdate now) w))
                      (call_timer (OpUpdate now) w))))
      as (-> & -> & -> & _ & -> & _).
    repeat split.
  - destruct (updatePanelLabel_frame None (call_timer (OpUpdate now) w))
      as (-> & -> & -> & _ & -> & _).
    repeat split.
Qed.

Lemma updateTimer_running (now : Z) (w : Popup) :
  isStopped (this (update now (timer w))) = false ->
  updateTimer now w = (updatePanelLabel None (call_timer (OpUpdate now) w), true).
Proof.
  intros H. unfold updateTimer.
  change (timer (call_timer (OpUpdate now) w)) with (update now (timer w)).
  rewrite H. reflexivity.
Qed.

Lemma updatePanelLabel_time (w : Popup) :
  isStopped (this (timer w)) = false ->
  panelLabel (updatePanelLabel None w) = getFormatted (shown (timer w))
  /\ panelIcon (updatePanelLabel None w)
     = playStateIconMap (state (this (timer w))).
Proof.
  intros H. unfold updatePanelLabel. cbn [truthy]. rewrite H. split; reflexivity.
Qed.

(** X6.  The main loop dispatching the refresh source while the timer
    plays before its deadline, or is Paused: the callback asks to be
    called again, the source stays registered with all the others, no
    notification is made, and the panel shows the timer's time: the
    remaining whole seconds for a Playing timer, the time left
    standing for a Paused one, whose fields do not change. *)
Theorem dispatch_keeps_running (id : nat) (now : Z) (w : Popup) :
  In id (sources w) ->
  (isPlaying (this (timer w)) = true
   /\ 0 < Js.toNumber (finishTimestamp (this (timer w))) - now)
  \/ isPaused (this (timer w)) = true ->
  let w' := dispatch id now w in
  snd (updateTimer now w) = true
  /\ sources w' = sources w
  /\ count_notify (calls w') = count_notify (calls w)
  /\ state (this (timer w')) = state (this (timer w))
  /\ finishTimestamp (this (timer w')) = finishTimestamp (this (timer w))
  /\ panelLabel w' = getFormatted (shown (timer w'))
  /\ (isPaused (this (timer w)) = true -> timer w' = timer w)
  /\ (isPlaying (this (timer w)) = true ->
      total_seconds (shown (timer w'))
      = (Js.toNumber (finishTimestamp (this (timer w))) - now) / SECOND_TO_MS).
Proof.
  intros Hin Hcase. cbv zeta.
  assert (Hex : existsb (Nat.eqb id) (sources w) = true).
  { apply existsb_exists. exists id. split; [exact Hin | apply Nat.eqb_refl]. }
  assert (Hst : state (this (update now (timer w))) = state (this (timer w))
                /\ isStopped (this (update now (timer w))) = false
                /\ finishTimestamp (this (update now (timer w)))
                   = finishTimestamp (this (timer w))).
  { destruct Hcase as [[Hplay Hpos] | Hp].
    - pose proof (isPlaying_not_paused _ Hplay) as Hnp.
      unfold isStopped. rewrite update_this by exact Hnp. cbn [state finishTimestamp].
      destruct (Z.leb_spec (Js.toNumber (finishTimestamp (this (timer w))) - now) 0);
        [lia |].
      revert Hplay. unfold isPlaying.
      destruct (state (this (timer w))); simpl; try discriminate. auto.
    - rewrite update_paused by exact Hp.
      revert Hp. unfold isPaused, isStopped.
      destruct (state (this (timer w))); simpl; try discriminate. auto. }
  destruct Hst as (Hstate & Hns & Hfin).
  unfold dispatch. rewrite Hex.
  rewrite (updateTimer_running now w Hns). cbn [snd].
  rewrite calls_updatePanelLabel, timer_updatePanelLabel.
  rewrite (proj1 (proj2 (proj2 (proj2 (updatePanelLabel_frame None _))))).
  change (timer (call_timer (OpUpdate now) w)) with (update now (timer w)).
  rewrite (proj1 (updatePanelLabel_time (call_timer (OpUpdate now) w) Hns)).
  change (timer (call_timer (OpUpdate now) w)) with (update now (timer w)).
  split; [reflexivity |]. split; [reflexivity |]. split.
  { unfold call_timer, count_notify. cbn [calls called with_timer].
    rewrite filter_app, length_app. cbn. lia. }
  split; [exact Hstate |]. split; [exact Hfin |]. split; [reflexivity |].
  split.
  - intros Hp. apply update_paused. exact Hp.
  - intros Hplay. destruct Hcase as [[_ Hpos] | Hp].
    + rewrite update_shown by (apply isPlaying_not_paused; exact Hplay).
      apply total_seconds_units. lia.
    + rewrite (isPlaying_not_paused _ Hplay) in Hp. discriminate.
Qed.

Lemma dispatch_keeps_running_witness :
  let w := handlePlayClick 0 0 0 (popup_of 0 0 5) in
  In 1%nat (sources w)
  /\ isPlaying (this (timer w)) = true
  /\ 0 < Js.toNumber (finishTimestamp (this (timer w))) - 1500000
  /\ panelLabel (dispatch 1 1500000 w) = "00:00:03"%string
  /\ sources (dispatch 1 1500000 w) = sources w.
Proof.
  assert (Hin : In 1%nat (sources (handlePlayClick 0 0 0 (popup_of 0 0 5))))
    by (vm_compute; left; reflexivity).
  assert (Hplay : isPlaying (this (timer (handlePlayClick 0 0 0 (popup_of 0 0 5))))
                  = true) by (vm_compute; reflexivity).
  assert (Hpos : 0 < Js.toNumber
                       (finishTimestamp
                          (this (timer (handlePlayClick 0 0 0 (popup_of 0 0 5)))))
                     - 1500000) by (vm_compute; reflexivity).
  split; [exact Hin |]. split; [exact Hplay |]. split; [exact Hpos |].
  split; [vm_compute; reflexivity |].
  exact (proj1 (proj2 (dispatch_keeps_running 1 1500000
                         (handlePlayClick 0 0 0 (popup_of 0 0 5)) Hin
                         (or_introl (conj Hplay Hpos))))).
Defined.

(** X7.  The main loop dispatching the refresh source [this.timeout]
    on a timer that is not Paused and whose deadline has come: the
    timer ends Stopped at 00:00:00, the panel reads "Done!" with the
    stop icon, the play item reads "Start", exactly one notification
    "Done!" is made, the callback returns [false] and the source is
    registered no longer, the other sources being kept. *)
Theorem dispatch_completes (id : nat) (now : Z) (w : Popup) :
  In id (sources w) ->
  timeout w = Some id ->
  isPaused (this (timer w)) = false ->
  Js.toNumber (finishTimestamp (this (timer w))) - now <= 0 ->
  let w' := dispatch id now w in
  snd (updateTimer now w) = false
  /\ state (this (timer w')) = STATE_STOP
  /\ shown (timer w') = mkTime 0 0 0
  /\ panelLabel w' = "Done!"%string
  /\ panelIcon w' = "media-playback-stop-symbolic"%string
  /\ playLabel w' = "Start"%string
  /\ calls w' = calls w ++ [CallTimer (OpUpdate now); CallSourceRemove (Some id);
                            CallTimer OpStop; CallNotify "Done!"]
  /\ ~ In id (sources w')
  /\ (forall j, j <> id -> In j (sources w) <-> In j (sources w')).
Proof.
  intros Hin Hto Hp Hle. cbv zeta.
  assert (Hex : existsb (Nat.eqb id) (sources w) = true).
  { apply existsb_exists. exists id. split; [exact Hin | apply Nat.eqb_refl]. }
  pose proof (update_expired_stops now (timer w) Hp Hle) as Hs.
  unfold dispatch. rewrite Hex. unfold updateTimer.
  change (timer (call_timer (OpUpdate now) w)) with (update now (timer w)).
  unfold isStopped. rewrite Hs. cbn [State_eqb snd].
  unfold notify, stopTimer, source_remove, call_timer, updatePanelLabel.
  cbn [truthy timer with_timer called with_sources with_panelLabel with_panelIcon
       with_playLabel sources next_source calls timeout panelLabel panelIcon
       playLabel perform].
  rewrite Hto.
  split; [reflexivity |].
  split; [reflexivity |].
  split; [apply stop_shown |].
  split; [reflexivity |].
  split; [reflexivity |].
  split; [reflexivity |].
  split; [rewrite <- !app_assoc; reflexivity |].
  split.
  - intros Hin'. apply filter_In in Hin'. destruct Hin' as [_ Hne].
    rewrite Nat.eqb_refl in Hne. discriminate.
  - intros j Hj. rewrite !filter_In.
    assert (Hb : negb (Nat.eqb j id) = true).
    { destruct (Nat.eqb_spec j id); [contradiction | reflexivity]. }
    rewrite Hb. tauto.
Qed.

Lemma dispatch_completes_witness :
  let w := handlePlayClick 0 0 0 (popup_of 0 0 5) in
  In 1%nat (sources w) /\ timeout w = Some 1%nat
  /\ isPaused (this (timer w)) = false
  /\ Js.toNumber (finishTimestamp (this (timer w))) - 5200000 <= 0
  /\ panelLabel (dispatch 1 5200000 w) = "Done!"%string.
Proof.
  assert (Hin : In 1%nat (sources (handlePlayClick 0 0 0 (popup_of 0 0 5))))
    by (vm_compute; left; reflexivity).
  assert (Hto : timeout (handlePlayClick 0 0 0 (popup_of 0 0 5)) = Some 1%nat)
    by (vm_compute; reflexivity).
  assert (Hp : isPaused (this (timer (handlePlayClick 0 0 0 (popup_of 0 0 5))))
               = false) by (vm_compute; reflexivity).
  assert (Hle : Js.toNumber
                  (finishTimestamp
                     (this (timer (handlePlayClick 0 0 0 (popup_of 0 0 5)))))
                - 5200000 <= 0) by (vm_compute; discriminate).
  split; [exact Hin |]. split; [exact Hto |]. split; [exact Hp |].
  split; [exact Hle |].
  exact (proj1 (proj2 (proj2 (proj2
           (dispatch_completes 1 5200000
              (handlePlayClick 0 0 0 (popup_of 0 0 5)) Hin Hto Hp Hle))))).
Defined.

(** ** Clicks *)

Lemma setTime_this (src : loc) (o : TimerObj) :
  this (setTime src o) = set_time (next (heap o)) (this o)
  /\ next (heap (setTime src o)) = Pos.succ (next (heap o))
  /\ (forall l, l <> next (heap o) ->
                deref (heap (setTime src o)) l = deref (heap o) l).
Proof.
  unfold setTime, new_Time. cbn. repeat split.
  intros l Hl. unfold deref. cbn.
  destruct (Pos.eqb_spec l (next (heap o))); [contradiction | reflexivity].
Qed.

(** X8.  A click on the play item of a Stopped popup whose configured
    time has no negative field and is longer than the click takes: the
    countdown starts from [options.time], with the deadline at the
    first clock reading plus the configured duration; the timer is
    Playing, the panel shows the whole seconds left with the play
    icon, the play item reads "Pause", one 500 ms source is registered
    and kept in [this.timeout], and no notification is made. *)
Theorem click_starts_countdown (now0 now1 now2 : Z) (w : Popup) :
  isStopped (this (timer w)) = true ->
  0 <= hours (configured w) -> 0 <= minutes (configured w) ->
  0 <= seconds (configured w) ->
  now0 <= now1 <= now2 ->
  now2 - now0 < configured_mcs (configured w) ->
  let w' := handlePlayClick now0 now1 now2 w in
  let r := configured_mcs (configured w) - (now2 - now0) in
  state (this (timer w')) = STATE_PLAY
  /\ finishTimestamp (this (timer w'))
     = Some (now0 + configured_mcs (configured w))
  /\ remaining (timer w') = r
  /\ shown (timer w') = mkTime (hours_of r) (minutes_of r) (seconds_of r)
  /\ panelLabel w' = getFormatted (shown (timer w'))
  /\ panelIcon w' = "media-playback-start-symbolic"%string
  /\ playLabel w' = "Pause"%string
  /\ sources w' = sources w ++ [next_source w]
  /\ timeout w' = Some (next_source w)
  /\ calls w' = calls w ++ [CallTimer (OpSetTime (options_time w));
                            CallTimer (OpStart now0 now1);
                            CallTimer (OpUpdate now2);
                            CallTimeoutAdd 500 (next_source w)].
Proof.
  intros Hs Hh Hm Hsec Hclock Hlong. cbv zeta.
  set (d := configured_mcs (configured w)) in *.
  set (o1 := setTime (options_time w) (timer w)).
  assert (Hsh1 : shown o1 = configured w) by apply setTime_copies.
  set (o2 := start now0 now1 o1).
  assert (Hf2 : finishTimestamp (this o2) = Some (now0 + d)).
  { unfold o2. rewrite start_finishTimestamp, Hsh1.
    unfold d, configured_mcs. f_equal. lia. }
  assert (Hst2 : state (this o2) = STATE_PLAY).
  { unfold o2, start. rewrite update_this by reflexivity.
    cbn [state this finishTimestamp set_state set_finishTimestamp Js.toNumber].
    rewrite Hsh1. fold (configured_mcs (configured w)). fold d.
    destruct (Z.leb_spec (now0 + SECOND_TO_MS * seconds (configured w)
                          + MINUTE_TO_MS * minutes (configured w)
                          + HOUR_TO_MS * hours (configured w) - now1) 0) as [Hle |];
      [| reflexivity].
    unfold d, configured_mcs in Hlong. lia. }
  assert (Hnp2 : isPaused (this o2) = false)
    by (unfold isPaused; rewrite Hst2; reflexivity).
  set (o3 := update now2 o2).
  assert (Ht3 : this o3 = mkTimer (Some (d - (now2 - now0)))
                                  (pauseTimestamp (this o2))
                                  (Some (now0 + d)) (time (this o2)) STATE_PLAY).
  { unfold o3. rewrite update_this by exact Hnp2. rewrite Hf2, Hst2.
    cbn [Js.toNumber].
    destruct (Z.leb_spec (now0 + d - now2) 0); [lia |].
    f_equal. f_equal. lia. }
  assert (Hsh3 : shown o3 = mkTime (hours_of (d - (now2 - now0)))
                                   (minutes_of (d - (now2 - now0)))
                                   (seconds_of (d - (now2 - now0)))).
  { unfold o3. rewrite update_shown by exact Hnp2. rewrite Hf2.
    cbn [Js.toNumber].
    replace (now0 + d - now2) with (d - (now2 - now0)) by lia. reflexivity. }
  assert (Hns3 : isStopped (this o3) = false)
    by (unfold isStopped; rewrite Ht3; reflexivity).
  unfold handlePlayClick. rewrite Hs.
  set (w2 := call_timer (OpStart now0 now1)
               (call_timer (OpSetTime (options_time w)) w)).
  assert (Htw2 : timer w2 = o2) by reflexivity.
  assert (Hrun : updateTimer now2 w2
                 = (updatePanelLabel None (call_timer (OpUpdate now2) w2), true)).
  { apply updateTimer_running. rewrite Htw2. exact Hns3. }
  rewrite Hrun. cbn [fst].
  set (w3 := call_timer (OpUpdate now2) w2).
  assert (Htw3 : timer w3 = o3) by reflexivity.
  assert (Hns3' : isStopped (this (timer w3)) = false)
    by (rewrite Htw3; exact Hns3).
  destruct (updatePanelLabel_time w3 Hns3') as [Hlabel Hicon].
  destruct (updatePanelLabel_frame None w3)
    as (Hft & Hfo & Hfto & Hfs & Hfn & Hfc & Hfp).
  unfold timeout_add.
  cbn [timer with_playLabel with_timeout called with_sources panelLabel panelIcon
       playLabel sources timeout calls].
  rewrite Hft, Hfs, Hfn, Hfc, Hlabel, Hicon, Htw3.
  unfold remaining. rewrite Ht3. cbn [state finishTimestamp mcsLeft Js.toNumber].
  repeat split.
  - exact Hsh3.
  - unfold w3, w2, call_timer. cbn [calls called with_timer].
    rewrite <- !app_assoc. reflexivity.
Qed.

Lemma click_starts_countdown_witness :
  let w := popup_of 0 40 0 in
  isStopped (this (timer w)) = true
  /\ 0 <= hours (configured w) /\ 0 <= minutes (configured w)
  /\ 0 <= seconds (configured w)
  /\ 10 <= 11 <= 12
  /\ 12 - 10 < configured_mcs (configured w)
  /\ playLabel (handlePlayClick 10 11 12 w) = "Pause"%string
  /\ panelLabel (handlePlayClick 10 11 12 w) = "00:39:59"%string.
Proof.
  split; [reflexivity |].
  split; [vm_compute; discriminate |]. split; [vm_compute; discriminate |].
  split; [vm_compute; discriminate |]. split; [lia |].
  split; [vm_compute; reflexivity |].
  split; [| vm_compute; reflexivity].
  exact (proj1 (proj2 (proj2 (proj2 (proj2 (proj2 (proj2
           (click_starts_countdown 10 11 12 (popup_of 0 40 0) eq_refl
              ltac:(vm_compute; discriminate) ltac:(vm_compute; discriminate)
              ltac:(vm_compute; discriminate) ltac:(lia)
              ltac:(vm_compute; reflexivity))))))))).
Defined.

Lemma stop_this (o : TimerObj) :
  this (stop o) = set_state STATE_STOP (this o)
  /\ next (heap (stop o)) = next (heap o)
  /\ (forall l, l <> time (this o) -> deref (heap (stop o)) l = deref (heap o) l).
Proof.
  unfold stop. cbn [this heap]. repeat split.
  intros l Hl. rewrite !deref_assign_other by exact Hl. reflexivity.
Qed.

Lemma stopTimer_timer (text : option string) (w : Popup) :
  timer (stopTimer text w) = stop (timer w).
Proof.
  unfold stopTimer. cbn [timer with_playLabel].
  rewrite timer_updatePanelLabel. reflexivity.
Qed.

(** X9.  A click on the stop item, on a well-formed popup: the timer
    ends Stopped at 00:00:00 with its deadline and pause instant as
    they were, the source in [this.timeout] is registered no longer,
    the play item reads "Start", and the panel shows the configured
    time, which the click leaves as it is; no notification is made.  A
    second click changes none of this. *)
Theorem stop_click_resets_display (w : Popup) :
  popup_wf w ->
  let w' := stopTimer None w in
  let w'' := stopTimer None w' in
  state (this (timer w')) = STATE_STOP
  /\ shown (timer w') = mkTime 0 0 0
  /\ finishTimestamp (this (timer w')) = finishTimestamp (this (timer w))
  /\ pauseTimestamp (this (timer w')) = pauseTimestamp (this (timer w))
  /\ configured w' = configured w
  /\ panelLabel w' = getFormatted (configured w)
  /\ panelIcon w' = "media-playback-stop-symbolic"%string
  /\ playLabel w' = "Start"%string
  /\ (forall id, timeout w = Some id -> ~ In id (sources w'))
  /\ count_notify (calls w') = count_notify (calls w)
  /\ (this (timer w'') = this (timer w')
      /\ shown (timer w'') = shown (timer w')
      /\ panelLabel w'' = panelLabel w'
      /\ panelIcon w'' = panelIcon w'
      /\ playLabel w'' = playLabel w'
      /\ sources w'' = sources w').
Proof.
  intros (Hao & Hat & Hne). cbv zeta.
  assert (Hcfg : forall v, time (this (timer v)) <> options_time v ->
                           configured (stopTimer None v) = configured v
                           /\ panelLabel (stopTimer None v)
                              = getFormatted (configured v)
                           /\ time (this (timer (stopTimer None v)))
                              = time (this (timer v))
                           /\ options_time (stopTimer None v) = options_time v).
  { intros v Hv. unfold stopTimer, updatePanelLabel, source_remove, call_timer, configured.
    cbn [truthy timer with_timer called with_sources with_panelLabel with_panelIcon
         with_playLabel options_time panelLabel perform isStopped state this stop
         set_state State_eqb heap].
    rewrite !deref_assign_other by (intros E; apply Hv; symmetry; exact E).
    repeat split. }
  destruct (Hcfg w Hne) as (Hc1 & Hl1 & Ht1 & Ho1).
  assert (Hne' : time (this (timer (stopTimer None w)))
                 <> options_time (stopTimer None w)) by (rewrite Ht1, Ho1; exact Hne).
  destruct (Hcfg _ Hne') as (Hc2 & Hl2 & _ & _).
  split; [reflexivity |].
  split; [apply stop_shown |].
  split; [reflexivity |]. split; [reflexivity |].
  split; [exact Hc1 |]. split; [exact Hl1 |].
  split; [reflexivity |]. split; [reflexivity |].
  split.
  { intros id Hid Hin. unfold stopTimer, updatePanelLabel, source_remove, call_timer in Hin.
    cbn [truthy timer with_timer called with_sources with_panelLabel with_panelIcon
         with_playLabel sources isStopped state this perform stop set_state
         State_eqb] in Hin.
    rewrite Hid in Hin. apply filter_In in Hin. destruct Hin as [_ Hb].
    rewrite Nat.eqb_refl in Hb. discriminate. }
  split.
  { unfold stopTimer, updatePanelLabel, source_remove, call_timer, count_notify.
    cbn [truthy timer with_timer called with_sources with_panelLabel with_panelIcon
         with_playLabel calls isStopped state this perform stop set_state State_eqb].
    rewrite !filter_app, !length_app. cbn. lia. }
  split; [reflexivity |].
  split; [rewrite !stopTimer_timer, !stop_shown; reflexivity |].
  split; [rewrite Hl2, Hl1, Hc1; reflexivity |].
  split; [reflexivity |]. split; [reflexivity |].
  unfold stopTimer, updatePanelLabel, source_remove, call_timer.
  cbn [truthy timer with_timer called with_sources with_panelLabel with_panelIcon
       with_playLabel sources timeout isStopped state this perform stop set_state
       State_eqb].
  destruct (timeout w) as [id |]; [| reflexivity].
  induction (sources w) as [| j rest IH]; [reflexivity |].
  cbn [filter]. destruct (Nat.eqb j id) eqn:E; cbn [negb].
  - exact IH.
  - cbn [filter]. rewrite E. cbn [negb]. f_equal. exact IH.
Qed.

Lemma stop_click_resets_display_witness :
  let w := handlePlayClick 0 0 0 (popup_of 0 40 0) in
  popup_wf w
  /\ panelLabel (stopTimer None w) = "00:40:00"%string
  /\ sources (stopTimer None w) = [].
Proof.
  assert (Hwf : popup_wf (handlePlayClick 0 0 0 (popup_of 0 40 0))).
  { unfold popup_wf, allocated. vm_compute.
    split; [reflexivity |]. split; [reflexivity | discriminate]. }
  split; [exact Hwf |]. split; [| vm_compute; reflexivity].
  exact (proj1 (proj2 (proj2 (proj2 (proj2 (proj2
           (stop_click_resets_display
              (handlePlayClick 0 0 0 (popup_of 0 40 0)) Hwf))))))).
Defined.

(** ** A loop started on a timer past its deadline *)

Lemma Sliders_updateTimer_same (now : Z) (w : Popup) :
  Sliders.updateTimer now w = updateTimer now w.
Proof.
  unfold Sliders.updateTimer, updateTimer, Sliders.stopTimer, stopTimer,
    Sliders.stopDisplayingTime.
  reflexivity.
Qed.

Lemma startDisplayingTime_timer (now : Z) (w : Popup) :
  timer (Sliders.startDisplayingTime now w)
  = (if isStopped (this (update now (timer w))) then stop (update now (timer w))
     else update now (timer w))
  /\ options_time (Sliders.startDisplayingTime now w) = options_time w
  /\ sources (Sliders.startDisplayingTime now w)
     = sources (fst (updateTimer now w)) ++ [next_source w]
  /\ next_source (Sliders.startDisplayingTime now w) = S (next_source w).
Proof.
  unfold Sliders.startDisplayingTime. rewrite Sliders_updateTimer_same.
  destruct (updateTimer_timer now w) as (Ht & Ho & Hn & _).
  unfold timeout_add.
  cbn [timer options_time sources next_source with_timeout called with_sources].
  rewrite Ht, Ho, Hn. repeat split.
Qed.

(** X10.  [startDisplayingTime()] registers its source whatever its
    own first update finds.  On a timer that is not Paused and whose
    deadline has passed, that first update completes the countdown with
    one notification, the source is registered all the same, and its
    first dispatch, at a later clock reading, notifies a second time
    before the source goes. *)
Theorem loop_started_past_deadline_notifies_twice (now now' : Z) (w : Popup) :
  isPaused (this (timer w)) = false ->
  Js.toNumber (finishTimestamp (this (timer w))) - now <= 0 ->
  now <= now' ->
  let w1 := Sliders.startDisplayingTime now w in
  let w2 := dispatch (next_source w) now' w1 in
  state (this (timer w1)) = STATE_STOP
  /\ In (next_source w) (sources w1)
  /\ timeout w1 = Some (next_source w)
  /\ count_notify (calls w1) = S (count_notify (calls w))
  /\ count_notify (calls w2) = S (S (count_notify (calls w)))
  /\ ~ In (next_source w) (sources w2).
Proof.
  intros Hp Hle Hclock. cbv zeta.
  pose proof (update_expired_stops now (timer w) Hp Hle) as Hs.
  destruct (startDisplayingTime_calls now w) as (Hc & _ & Hto & Hin).
  destruct (startDisplayingTime_timer now w) as (Ht & _).
  assert (Hst : isStopped (this (update now (timer w))) = true)
    by (unfold isStopped; rewrite Hs; reflexivity).
  rewrite Hst in Ht, Hc.
  assert (Hc1 : count_notify (calls (Sliders.startDisplayingTime now w))
                = S (count_notify (calls w))).
  { rewrite Hc. unfold count_notify. rewrite filter_app, length_app. cbn. lia. }
  assert (Hp1 : isPaused (this (timer (Sliders.startDisplayingTime now w))) = false)
    by (rewrite Ht; reflexivity).
  assert (Hle1 : Js.toNumber
                   (finishTimestamp (this (timer (Sliders.startDisplayingTime now w))))
                 - now' <= 0).
  { rewrite Ht. rewrite (proj1 (stop_this _)). cbn [finishTimestamp set_state].
    rewrite update_this by exact Hp. cbn [finishTimestamp]. lia. }
  destruct (dispatch_expired (next_source w) now'
              (Sliders.startDisplayingTime now w) Hin Hp1 Hle1)
    as (Hgone & Hc2 & _).
  split; [rewrite Ht; reflexivity |].
  split; [exact Hin |]. split; [exact Hto |]. split; [exact Hc1 |].
  split; [rewrite Hc2, Hc1; reflexivity | exact Hgone].
Qed.

Lemma loop_started_past_deadline_notifies_twice_witness :
  let w := call_timer (OpStart 0 0) (popup_of 0 0 5) in
  isPaused (this (timer w)) = false
  /\ Js.toNumber (finishTimestamp (this (timer w))) - 6000000 <= 0
  /\ 6000000 <= 6500000
  /\ count_notify
       (calls (dispatch (next_source w) 6500000
                 (Sliders.startDisplayingTime 6000000 w))) = 2%nat.
Proof.
  split; [reflexivity |]. split; [vm_compute; discriminate |]. split; [lia |].
  exact (proj1 (proj2 (proj2 (proj2 (proj2
           (loop_started_past_deadline_notifies_twice 6000000 6500000
              (call_timer (OpStart 0 0) (popup_of 0 0 5)) eq_refl
              ltac:(vm_compute; discriminate) ltac:(lia))))))).
Defined.

(** ** What every event keeps *)

Lemma update_time_next (now : Z) (o : TimerObj) :
  time (this (update now o)) = time (this o)
  /\ next (heap (update now o)) = next (heap o).
Proof.
  unfold update. destruct (isPaused (this o)); [split; reflexivity |].
  destruct (_ <=? 0); split; reflexivity.
Qed.

Lemma perform_apart (op : Op) (lo : loc) (o : TimerObj) :
  apart lo o ->
  apart lo (perform op o) /\ deref (heap (perform op o)) lo = deref (heap o) lo.
Proof.
  intros (Hlo & Ht & Hne). unfold apart, allocated in *.
  destruct op as [src | now0 now1 | now | now | | now]; cbn [perform].
  - destruct (setTime_this src o) as (Hthis & Hnext & Hother).
    rewrite Hthis, Hnext. cbn [time set_time].
    split; [split; [| split]; lia |].
    apply Hother. lia.
  - unfold start.
    set (o1 := mkObj (heap o) _).
    destruct (update_time_next now1 o1) as (Htime & Hnext).
    rewrite Htime, Hnext. cbn [o1 time this heap set_state set_finishTimestamp].
    split; [split; [| split]; assumption |].
    rewrite update_other by (cbn; intros E; apply Hne; symmetry; exact E).
    reflexivity.
  - cbn. split; [split; [| split]; assumption | reflexivity].
  - cbn. split; [split; [| split]; assumption | reflexivity].
  - destruct (stop_this o) as (Hthis & Hnext & Hother).
    rewrite Hthis, Hnext. cbn [time set_state].
    split; [split; [| split]; assumption |].
    apply Hother. intros E. apply Hne. symmetry. exact E.
  - destruct (update_time_next now o) as (Htime & Hnext).
    rewrite Htime, Hnext.
    split; [split; [| split]; assumption |].
    apply update_other. intros E. apply Hne. symmetry. exact E.
Qed.

Lemma perform_all_apart (ops : list Op) (lo : loc) :
  forall o,
    apart lo o ->
    apart lo (perform_all ops o)
    /\ deref (heap (perform_all ops o)) lo = deref (heap o) lo.
Proof.
  induction ops as [| op rest IH]; intros o Ha; cbn.
  - split; [exact Ha | reflexivity].
  - destruct (perform_apart op lo o Ha) as [Ha' Hd].
    destruct (IH (perform op o) Ha') as [Ha'' Hd'].
    split; [exact Ha'' |]. unfold perform_all in Hd'. rewrite Hd', Hd. reflexivity.
Qed.

(** Apart from a slider input, an event acts on the timer through its
    methods only, and leaves the reference [options.time] as it is. *)
Lemma react_through_methods (e : Event) (w : Popup) :
  is_slider e = false ->
  options_time (Lifecycle.react e w) = options_time w
  /\ exists ops, timer (Lifecycle.react e w) = perform_all ops (timer w).
Proof.
  intros He.
  assert (Hupd : forall now v,
             options_time (fst (updateTimer now v)) = options_time v
             /\ exists ops, timer (fst (updateTimer now v))
                            = perform_all ops (timer v)).
  { intros now v. destruct (updateTimer_timer now v) as (Ht & Ho & _).
    split; [exact Ho |]. rewrite Ht.
    destruct (isStopped (this (update now (timer v)))).
    - exists [OpUpdate now; OpStop]. reflexivity.
    - exists [OpUpdate now]. reflexivity. }
  destruct e as [now0 now1 now2 | | id now | hh mm ss];
    cbn [Lifecycle.react]; try discriminate.
  - unfold Sliders.handlePlayClick. cbn [timer options_time with_playLabel].
    destruct (isStopped (this (timer w))).
    + unfold Sliders.startTimer.
      set (w2 := call_timer (OpStart now0 now1)
                   (call_timer (OpSetTime (options_time w)) w)).
      destruct (startDisplayingTime_timer now2 w2) as (Ht & Ho & _).
      rewrite Ht, Ho. split; [reflexivity |].
      destruct (isStopped (this (update now2 (timer w2)))).
      * exists [OpSetTime (options_time w); OpStart now0 now1;
                OpUpdate now2; OpStop]. reflexivity.
      * exists [OpSetTime (options_time w); OpStart now0 now1; OpUpdate now2].
        reflexivity.
    + destruct (isPlaying (this (timer w))).
      * split; [reflexivity |]. exists [OpPause now0]. reflexivity.
      * destruct (isPaused (this (timer w))).
        -- split; [reflexivity |]. exists [OpResume now0]. reflexivity.
        -- split; [reflexivity |]. exists []. reflexivity.
  - change (Sliders.stopTimer None w) with (stopTimer None w).
    rewrite stopTimer_timer. split.
    + unfold stopTimer. cbn [options_time with_playLabel].
      rewrite (proj1 (proj2 (updatePanelLabel_frame _ _))). reflexivity.
    + exists [OpStop]. reflexivity.
  - unfold dispatch. destruct (existsb (Nat.eqb id) (sources w)).
    + destruct (Hupd now w) as (Ho & ops & Ht).
      destruct (updateTimer now w) as [w1 again]. cbn [fst] in Ho, Ht.
      destruct again; cbn [timer options_time with_sources];
        (split; [exact Ho | exists ops; exact Ht]).
    + split; [reflexivity |]. exists []. reflexivity.
Qed.

Lemma handleTimeInput_frame (sl : Sliders.Sliders) (w : Popup) :
  this (timer (Sliders.handleTimeInput sl w)) = this (timer w)
  /\ next (heap (timer (Sliders.handleTimeInput sl w))) = next (heap (timer w))
  /\ options_time (Sliders.handleTimeInput sl w) = options_time w
  /\ configured (Sliders.handleTimeInput sl w)
     = mkTime (Js.round_double
                 (PrimFloat.mul (Js.number Sliders.MAX_HOURS) (Sliders.s_hours sl)))
              (Js.round_double
                 (PrimFloat.mul (Js.number 60) (Sliders.s_minutes sl)))
              (Js.round_double
                 (PrimFloat.mul (Js.number 60) (Sliders.s_seconds sl))).
Proof.
  unfold Sliders.handleTimeInput, configured.
  rewrite timer_updatePanelLabel.
  rewrite (proj1 (proj2 (updatePanelLabel_frame _ _))).
  cbn [timer with_timer this heap options_time].
  repeat split.
  rewrite !deref_assign_same. reflexivity.
Qed.

(** X11.  Over every run of clicks, dispatches and slider inputs a
    well-formed popup stays well formed: [options.time] and the
    timer's [time] remain two distinct constructed objects.  The
    reference [options.time] never changes, and the configured time it
    holds changes through slider inputs alone: no operation of the
    timer, however the countdown goes, writes it. *)
Theorem events_keep_configured_time (es : list Event) (w : Popup) :
  popup_wf w ->
  popup_wf (Lifecycle.react_all es w)
  /\ options_time (Lifecycle.react_all es w) = options_time w
  /\ (forallb (fun e => negb (is_slider e)) es = true ->
      configured (Lifecycle.react_all es w) = configured w).
Proof.
  revert w. induction es as [| e rest IH]; intros w Hwf.
  - cbn. repeat split; try reflexivity; apply Hwf.
  - assert (Hstep : popup_wf (Lifecycle.react e w)
                    /\ options_time (Lifecycle.react e w) = options_time w
                    /\ (is_slider e = false ->
                        configured (Lifecycle.react e w) = configured w)).
    { destruct (is_slider e) eqn:He.
      - destruct e as [| | | hh mm ss]; try discriminate.
        cbn [Lifecycle.react].
        destruct (handleTimeInput_frame (Sliders.mkSliders hh mm ss) w)
          as (Ht & Hn & Ho & _).
        unfold popup_wf, allocated in *. rewrite Ht, Hn, Ho.
        split; [exact Hwf |]. split; [reflexivity | discriminate].
      - destruct (react_through_methods e w He) as (Ho & ops & Ht).
        destruct (perform_all_apart ops (options_time w) (timer w) Hwf)
          as [Ha Hd].
        unfold popup_wf, configured. rewrite Ho, Ht.
        split; [exact Ha |]. split; [reflexivity |]. intros _. exact Hd. }
    destruct Hstep as (Hwf' & Ho' & Hc').
    destruct (IH (Lifecycle.react e w) Hwf') as (Hwf'' & Ho'' & Hc'').
    cbn [Lifecycle.react_all fold_left].
    unfold Lifecycle.react_all in *.
    split; [exact Hwf'' |]. split; [rewrite Ho'', Ho'; reflexivity |].
    intros Hall. cbn [forallb] in Hall. apply andb_prop in Hall.
    destruct Hall as [He Hrest].
    rewrite (Hc'' Hrest). apply Hc'.
    destruct (is_slider e); [discriminate | reflexivity].
Qed.

Lemma events_keep_configured_time_witness :
  let es := [EvPlayClick 0 0 0; EvDispatch 1 500000; EvPlayClick 700000 0 0;
             EvDispatch 1 1000000; EvPlayClick 9000000 0 0;
             EvDispatch 1 20000000] in
  popup_wf (popup_of 0 0 5)
  /\ forallb (fun e => negb (is_slider e)) es = true
  /\ configured (Lifecycle.react_all es (popup_of 0 0 5)) = mkTime 0 0 5.
Proof.
  assert (Hwf : popup_wf (popup_of 0 0 5)).
  { unfold popup_wf, allocated. vm_compute.
    split; [reflexivity |]. split; [reflexivity | discriminate]. }
  split; [exact Hwf |]. split; [reflexivity |].
  exact (proj2 (proj2 (events_keep_configured_time
                         [EvPlayClick 0 0 0; EvDispatch 1 500000;
                          EvPlayClick 700000 0 0; EvDispatch 1 1000000;
                          EvPlayClick 9000000 0 0; EvDispatch 1 20000000]
                         (popup_of 0 0 5) Hwf)) eq_refl).
Defined.

(** ** Slider input *)

(** The double product of a maximum and the double quotient of a field
    by that maximum rounds back to the field, for the fields a slider
    can stand for. *)
Lemma round_trip_double (n m : Z) :
  n = 10 \/ n = 60 -> 0 <= m <= 99 ->
  Js.round_double
    (PrimFloat.mul (Js.number n) (PrimFloat.div (Js.number m) (Js.number n)))
  = m.
Proof.
  intros Hn. revert m. apply below_100_cases. intros k Hk.
  assert (Hall : forall n0,
             n0 = 10 \/ n0 = 60 ->
             forallb (fun k => Z.eqb
                        (Js.round_double
                           (PrimFloat.mul (Js.number n0)
                              (PrimFloat.div (Js.number (Z.of_nat k))
                                             (Js.number n0))))
                        (Z.of_nat k))
                     (seq 0 100) = true).
  { intros n0 [-> | ->]; vm_compute; reflexivity. }
  specialize (Hall n Hn). rewrite forallb_forall in Hall.
  apply Z.eqb_eq. apply Hall. apply in_seq. lia.
Qed.



(** X13.  The sliders are constructed at the double quotients of the
    fields of the configured time by their maxima, 10 and 60; for a
    configured time that the sliders can stand for (hours within
    0..10, minutes and seconds within 0..60) a slider input at these
    positions, which rounds the double products, writes the same
    configured time back. *)
Theorem sliders_round_trip (w : Popup) :
  0 <= hours (configured w) <= 10 ->
  0 <= minutes (configured w) <= 60 ->
  0 <= seconds (configured w) <= 60 ->
  configured (Sliders.handleTimeInput (Lifecycle.init_sliders (configured w)) w)
  = configured w.
Proof.
  intros Hh Hm Hs.
  rewrite (proj2 (proj2 (proj2 (handleTimeInput_frame _ w)))).
  unfold Lifecycle.init_sliders.
  cbn [Sliders.s_hours Sliders.s_minutes Sliders.s_seconds].
  rewrite (round_trip_double Sliders.MAX_HOURS) by (try (left; reflexivity); lia).
  rewrite !(round_trip_double 60) by (try (right; reflexivity); lia).
  destruct (configured w); reflexivity.
Qed.

Lemma sliders_round_trip_witness :
  0 <= hours (configured (popup_of 7 40 13)) <= 10
  /\ 0 <= minutes (configured (popup_of 7 40 13)) <= 60
  /\ 0 <= seconds (configured (popup_of 7 40 13)) <= 60
  /\ configured (Sliders.handleTimeInput
                   (Lifecycle.init_sliders (mkTime 7 40 13)) (popup_of 7 40 13))
     = mkTime 7 40 13.
Proof.
  assert (Hh : 0 <= hours (configured (popup_of 7 40 13)) <= 10)
    by (vm_compute; split; discriminate).
  assert (Hm : 0 <= minutes (configured (popup_of 7 40 13)) <= 60)
    by (vm_compute; split; discriminate).
  assert (Hs : 0 <= seconds (configured (popup_of 7 40 13)) <= 60)
    by (vm_compute; split; discriminate).
  split; [exact Hh |]. split; [exact Hm |]. split; [exact Hs |].
  exact (sliders_round_trip (popup_of 7 40 13) Hh Hm Hs).
Defined.

(** ** Destroying and constructing the popup again *)

Lemma init_not_stopped (now : Z) (e : Lifecycle.Shell) :
  isStopped (this (Lifecycle.sh_timer e)) = false ->
  let l := next (heap (Lifecycle.sh_timer e)) in
  let o0 := mkObj (snd (new_Time 0 40 0 (heap (Lifecycle.sh_timer e))))
                  (this (Lifecycle.sh_timer e)) in
  let w2 := mkPopup o0 l None (getFormatted (mkTime 0 40 0))
                    (playStateIconMap (state (this (Lifecycle.sh_timer e))))
                    "Start" (Lifecycle.sh_sources e) (Lifecycle.sh_next e)
                    (Lifecycle.sh_calls e) in
  Lifecycle._init now e = Sliders.startDisplayingTime now w2.
Proof.
  intros Hs. cbv zeta. unfold Lifecycle._init, new_Time.
  cbn [snd timer this]. rewrite Hs.
  cbn [timer this with_panelLabel with_panelIcon with_playLabel]. rewrite Hs.
  cbn [negb]. unfold configured, deref.
  cbn [timer heap cells options_time].
  rewrite Pos.eqb_refl. reflexivity.
Qed.

Lemma startDisplayingTime_playLabel (now : Z) (w : Popup) :
  playLabel (Sliders.startDisplayingTime now w)
  = playLabel (fst (updateTimer now w)).
Proof.
  unfold Sliders.startDisplayingTime. rewrite Sliders_updateTimer_same.
  reflexivity.
Qed.

Lemma updateTimer_sources (now : Z) (w : Popup) :
  sources (fst (updateTimer now w))
  = (if isStopped (this (update now (timer w)))
     then match timeout w with
          | Some i => filter (fun j => negb (Nat.eqb j i)) (sources w)
          | None => sources w
          end
     else sources w)
  /\ playLabel (fst (updateTimer now w))
     = (if isStopped (this (update now (timer w))) then "Start"%string
        else playLabel w).
Proof.
  unfold updateTimer.
  change (timer (call_timer (OpUpdate now) w)) with (update now (timer w)).
  destruct (isStopped (this (update now (timer w)))); cbn [fst].
  - unfold notify, stopTimer, source_remove.
    cbn [sources playLabel called with_playLabel].
    rewrite (proj1 (proj2 (proj2 (proj2 (updatePanelLabel_frame _ _))))).
    split; reflexivity.
  - rewrite (proj1 (proj2 (proj2 (proj2 (updatePanelLabel_frame _ _))))).
    rewrite (proj2 (proj2 (proj2 (proj2 (proj2 (proj2
               (updatePanelLabel_frame _ _))))))).
    split; reflexivity.
Qed.

(** X14.  [disable()] followed by [enable()] while a countdown is
    under way (the timer Playing or Paused).  The timer is the same
    object: its deadline and pause instant are unchanged, a Paused
    timer is unchanged altogether, and a Playing one before its
    deadline is still Playing and shows the whole seconds left at the
    new clock reading.  The old source is removed and one new source
    is registered.  The new popup is well formed, its configured time
    is the default 00:40:00 again, and its play item reads "Start". *)
Theorem reenable_keeps_countdown (now : Z) (w : Popup) :
  popup_wf w ->
  isStopped (this (timer w)) = false ->
  let e := Lifecycle.disable w in
  let w' := Lifecycle.enable now e in
  finishTimestamp (this (timer w')) = finishTimestamp (this (timer w))
  /\ pauseTimestamp (this (timer w')) = pauseTimestamp (this (timer w))
  /\ popup_wf w'
  /\ configured w' = mkTime 0 40 0
  /\ playLabel w' = "Start"%string
  /\ (forall id, timeout w = Some id -> ~ In id (Lifecycle.sh_sources e))
  /\ sources w' = Lifecycle.sh_sources e ++ [next_source w]
  /\ timeout w' = Some (next_source w)
  /\ (isPaused (this (timer w)) = true ->
      this (timer w') = this (timer w)
      /\ shown (timer w') = shown (timer w)
      /\ panelLabel w' = getFormatted (shown (timer w)))
  /\ (isPlaying (this (timer w)) = true ->
      0 < Js.toNumber (finishTimestamp (this (timer w))) - now ->
      state (this (timer w')) = STATE_PLAY
      /\ remaining (timer w')
         = Js.toNumber (finishTimestamp (this (timer w))) - now
      /\ total_seconds (shown (timer w'))
         = (Js.toNumber (finishTimestamp (this (timer w))) - now) / SECOND_TO_MS
      /\ panelLabel w' = getFormatted (shown (timer w'))).
Proof.
  intros (Hao & Hat & Hne) Hs. cbv zeta.
  set (e := Lifecycle.disable w).
  assert (Het : Lifecycle.sh_timer e = timer w) by reflexivity.
  assert (Hen : Lifecycle.sh_next e = next_source w) by reflexivity.
  unfold Lifecycle.enable.
  rewrite init_not_stopped by (rewrite Het; exact Hs).
  cbv zeta. rewrite Het, Hen.
  set (l := next (heap (timer w))).
  set (o0 := mkObj (snd (new_Time 0 40 0 (heap (timer w)))) (this (timer w))).
  set (w2 := mkPopup o0 l None _ _ _ _ _ _).
  assert (Ha0 : apart l o0).
  { unfold apart, allocated in *. unfold o0, new_Time, l. cbn. lia. }
  assert (Hd0 : deref (heap o0) l = mkTime 0 40 0).
  { unfold o0, new_Time, deref, l. cbn. rewrite Pos.eqb_refl. reflexivity. }
  assert (Hsh0 : shown o0 = shown (timer w)).
  { unfold shown, o0, new_Time, deref. cbn.
    unfold allocated in Hat.
    destruct (Pos.eqb_spec (time (this (timer w))) (next (heap (timer w))));
      [lia | reflexivity]. }
  destruct (startDisplayingTime_timer now w2) as (Ht & Ho & Hsrc & _).
  destruct (startDisplayingTime_calls now w2) as (_ & Hlabel & Hto & _).
  change (timer w2) with o0 in *. change (options_time w2) with l in *.
  change (next_source w2) with (next_source w) in *.
  assert (Hops : exists ops, timer (Sliders.startDisplayingTime now w2)
                             = perform_all ops o0).
  { rewrite Ht. destruct (isStopped (this (update now o0))).
    - exists [OpUpdate now; OpStop]. reflexivity.
    - exists [OpUpdate now]. reflexivity. }
  destruct Hops as [ops Hops].
  destruct (perform_all_apart ops l o0 Ha0) as [Ha Hd].
  assert (Hfp : finishTimestamp (this (timer (Sliders.startDisplayingTime now w2)))
                = finishTimestamp (this (timer w))
                /\ pauseTimestamp (this (timer (Sliders.startDisplayingTime now w2)))
                   = pauseTimestamp (this (timer w))).
  { rewrite Ht.
    assert (Hu : finishTimestamp (this (update now o0))
                 = finishTimestamp (this (timer w))
                 /\ pauseTimestamp (this (update now o0))
                    = pauseTimestamp (this (timer w))).
    { destruct (isPaused (this o0)) eqn:Hp.
      - rewrite update_paused by exact Hp. split; reflexivity.
      - rewrite update_this by exact Hp. split; reflexivity. }
    destruct (isStopped (this (update now o0)));
      [rewrite (proj1 (stop_this _)) |]; exact Hu. }
  split; [apply Hfp |]. split; [apply Hfp |].
  split; [unfold popup_wf; rewrite Ho, Hops; exact Ha |].
  split; [unfold configured; rewrite Ho, Hops, Hd; exact Hd0 |].
  assert (Hsrc2 : sources (fst (updateTimer now w2)) = Lifecycle.sh_sources e
                  /\ playLabel (Sliders.startDisplayingTime now w2) = "Start"%string).
  { rewrite startDisplayingTime_playLabel.
    destruct (updateTimer_sources now w2) as [-> ->].
    change (timeout w2) with (@None nat). change (playLabel w2) with "Start"%string.
    destruct (isStopped (this (update now (timer w2)))); split; reflexivity. }
  destruct Hsrc2 as [Hsrc2 Hplay].
  split; [exact Hplay |].
  split.
  { intros id Hid Hin. unfold e, Lifecycle.disable, Lifecycle.destroy,
      Sliders.stopDisplayingTime, source_remove in Hin.
    cbn [Lifecycle.sh_sources sources called with_sources] in Hin.
    rewrite Hid in Hin. apply filter_In in Hin. destruct Hin as [_ Hb].
    rewrite Nat.eqb_refl in Hb. discriminate. }
  split; [rewrite Hsrc, Hsrc2; reflexivity |].
  split; [exact Hto |].
  split.
  - intros Hp.
    assert (Hp0 : isPaused (this o0) = true) by exact Hp.
    rewrite (update_paused now o0 Hp0) in Ht, Hlabel.
    change (this o0) with (this (timer w)) in Ht, Hlabel.
    rewrite Hs in Ht, Hlabel.
    rewrite Ht, Hlabel, Hsh0. repeat split.
  - intros Hplay' Hpos.
    assert (Hnp : isPaused (this o0) = false)
      by (apply isPlaying_not_paused; exact Hplay').
    assert (Hst : state (this (timer w)) = STATE_PLAY).
    { revert Hplay'. unfold isPlaying.
      destruct (state (this (timer w))); simpl; congruence. }
    assert (Hthis : this (update now o0)
                    = mkTimer (Some (Js.toNumber (finishTimestamp (this (timer w)))
                                     - now))
                              (pauseTimestamp (this (timer w)))
                              (finishTimestamp (this (timer w)))
                              (time (this (timer w))) STATE_PLAY).
    { rewrite update_this by exact Hnp. cbn [o0 this]. rewrite Hst.
      destruct (Z.leb_spec (Js.toNumber (finishTimestamp (this (timer w))) - now) 0);
        [lia | reflexivity]. }
    assert (Hns : isStopped (this (update now o0)) = false)
      by (unfold isStopped; rewrite Hthis; reflexivity).
    rewrite Hns in Ht, Hlabel. rewrite Ht, Hlabel.
    unfold remaining. rewrite Hthis. cbn [state mcsLeft Js.toNumber].
    split; [reflexivity |]. split; [reflexivity |].
    split; [| reflexivity].
    rewrite update_shown by exact Hnp. cbn [o0 this].
    apply total_seconds_units. lia.
Qed.

Lemma reenable_keeps_countdown_witness :
  let w := handlePlayClick 0 0 0 (popup_of 0 40 0) in
  popup_wf w
  /\ isStopped (this (timer w)) = false
  /\ finishTimestamp
       (this (timer (Lifecycle.enable 3600000000 (Lifecycle.disable w))))
     = Some 2400000000
  /\ state (this (timer (Lifecycle.enable 3600000000 (Lifecycle.disable w))))
     = STATE_STOP
  /\ finishTimestamp
       (this (timer (Lifecycle.enable 600000000 (Lifecycle.disable w))))
     = finishTimestamp (this (timer w)).
Proof.
  assert (Hwf : popup_wf (handlePlayClick 0 0 0 (popup_of 0 40 0))).
  { unfold popup_wf, allocated. vm_compute.
    split; [reflexivity |]. split; [reflexivity | discriminate]. }
  split; [exact Hwf |]. split; [reflexivity |].
  split; [vm_compute; reflexivity |]. split; [vm_compute; reflexivity |].
  exact (proj1 (reenable_keeps_countdown 600000000
                  (handlePlayClick 0 0 0 (popup_of 0 40 0)) Hwf eq_refl)).
Defined.

(** ** The first variant of the timer *)

(** X15.  The two variants of [update()] on the same deadline, neither
    timer paused.  Before the deadline they compute the same remaining
    time and the same three units, and the first variant returns that
    remaining time.  From the deadline on the first variant returns
    [false] and leaves its units as they were, while the later one
    becomes Stopped and stores the units of the value that is not
    positive. *)
Theorem variants_agree_before_deadline
    (now : Z) (t : First.Timer) (o : TimerObj) :
  First.isPaused t = false ->
  isPaused (this o) = false ->
  finishTimestamp (this o) = Some (First.finishTimestamp t) ->
  let r := First.finishTimestamp t - now in
  let t' := fst (First.update now t) in
  First.mcsLeft t' = Some r
  /\ remaining (update now o) = r
  /\ (0 < r ->
      snd (First.update now t) = First.RetMcsLeft (Some r)
      /\ First.hours t' = Some (hours (shown (update now o)))
      /\ First.minutes t' = Some (minutes (shown (update now o)))
      /\ First.seconds t' = Some (seconds (shown (update now o)))
      /\ state (this (update now o)) = state (this o))
  /\ (r <= 0 ->
      snd (First.update now t) = First.RetFalse
      /\ First.hours t' = First.hours t
      /\ First.minutes t' = First.minutes t
      /\ First.seconds t' = First.seconds t
      /\ state (this (update now o)) = STATE_STOP
      /\ shown (update now o) = mkTime (hours_of r) (minutes_of r) (seconds_of r)).
Proof.
  intros Hpt Hpo Hf. cbv zeta.
  unfold remaining. rewrite update_shown, update_this by exact Hpo.
  rewrite Hf. cbn [Js.toNumber mcsLeft state hours minutes seconds].
  unfold First.update. rewrite Hpt. unfold First.isFinished.
  cbn [First.mcsLeft Js.toNumber].
  destruct (Z.leb_spec (First.finishTimestamp t - now) 0) as [Hle | Hgt];
    cbn [fst snd First.mcsLeft First.hours First.minutes First.seconds].
  - split; [reflexivity |]. split; [reflexivity |].
    split; [intros; lia |]. intros _. repeat split.
  - split; [reflexivity |]. split; [reflexivity |].
    split; [| intros; lia]. intros _. repeat split.
Qed.

Lemma variants_agree_before_deadline_witness :
  let t := First.new_Timer 0 0 0 5 in
  let o := start 0 0 (timer_of 0 0 5) in
  First.isPaused t = false /\ isPaused (this o) = false
  /\ finishTimestamp (this o) = Some (First.finishTimestamp t)
  /\ First.mcsLeft (fst (First.update 1500000 t)) = Some 3500000
  /\ remaining (update 1500000 o) = 3500000.
Proof.
  split; [reflexivity |]. split; [reflexivity |]. split; [reflexivity |].
  pose proof (variants_agree_before_deadline 1500000 (First.new_Timer 0 0 0 5)
                (start 0 0 (timer_of 0 0 5)) eq_refl eq_refl eq_refl) as H.
  split; [exact (proj1 H) | exact (proj1 (proj2 H))].
Defined.

(** X16.  The first variant, whose timer is paused exactly while
    [pauseTimestamp] is set.  After [pause()] every [update()] returns
    the remaining time computed before the pause and changes nothing;
    [resume()] moves the deadline by the length of the pause and ends
    the pause; the update after it returns what an update without the
    pause would have returned, with the same units. *)
Theorem first_pause_resume_excludes_paused_time
    (t : First.Timer) (p delta e now : Z) :
  First.isPaused t = false ->
  let tp := First.pause p t in
  let tr := First.resume (p + delta) tp in
  First.isPaused tp = true
  /\ First.update now tp = (tp, First.RetMcsLeft (First.mcsLeft t))
  /\ First.isPaused tr = false
  /\ First.finishTimestamp tr = First.finishTimestamp t + delta
  /\ snd (First.update (p + delta + e) tr) = snd (First.update (p + e) t)
  /\ First.mcsLeft (fst (First.update (p + delta + e) tr))
     = First.mcsLeft (fst (First.update (p + e) t))
  /\ First.hours (fst (First.update (p + delta + e) tr))
     = First.hours (fst (First.update (p + e) t))
  /\ First.minutes (fst (First.update (p + delta + e) tr))
     = First.minutes (fst (First.update (p + e) t))
  /\ First.seconds (fst (First.update (p + delta + e) tr))
     = First.seconds (fst (First.update (p + e) t)).
Proof.
  intros Hp. cbv zeta.
  split; [reflexivity |]. split; [reflexivity |]. split; [reflexivity |].
  assert (Hf : First.finishTimestamp (First.resume (p + delta) (First.pause p t))
               = First.finishTimestamp t + delta).
  { unfold First.resume, First.pause.
    cbn [First.finishTimestamp First.pauseTimestamp Js.toNumber]. lia. }
  split; [exact Hf |].
  unfold First.update. rewrite Hp.
  change (First.isPaused (First.resume (p + delta) (First.pause p t))) with false.
  cbv iota. rewrite Hf.
  replace (First.finishTimestamp t + delta - (p + delta + e))
    with (First.finishTimestamp t - (p + e)) by lia.
  unfold First.isFinished. cbn [First.mcsLeft Js.toNumber].
  destruct (First.finishTimestamp t - (p + e) <=? 0); repeat split.
Qed.

Lemma first_pause_resume_excludes_paused_time_witness :
  let t := fst (First.update 1000000 (First.new_Timer 0 0 0 5)) in
  First.isPaused t = false
  /\ First.update 9000000 (First.pause 2000000 t)
     = (First.pause 2000000 t, First.RetMcsLeft (Some 4000000)).
Proof.
  split; [reflexivity |].
  exact (proj1 (proj2 (first_pause_resume_excludes_paused_time
                         (fst (First.update 1000000 (First.new_Timer 0 0 0 5)))
                         2000000 60000000 500000 9000000 eq_refl))).
Defined.

(** ** The popup of the first variant *)

Lemma first_update_keeps_pause (now : Z) (t : First.Timer) :
  First.pauseTimestamp (fst (First.update now t)) = First.pauseTimestamp t.
Proof.
  unfold First.update. destruct (First.isPaused t); [reflexivity |].
  destruct (First.isFinished _); reflexivity.
Qed.

Lemma updateTime_in_step (now : Z) (w : FirstPopup.Popup) (t : First.Timer) :
  FirstPopup.timer w = Some t ->
  FirstPopup.in_step w ->
  exists w' again,
    FirstPopup.updateTime now w = Some (w', again)
    /\ FirstPopup.in_step w'
    /\ FirstPopup.timer w' = Some (fst (First.update now t))
    /\ (FirstPopup.state w' = FirstPopup.state w
        \/ FirstPopup.state w' = STATE_STOP).
Proof.
  intros Ht Hin. unfold FirstPopup.updateTime. rewrite Ht.
  pose proof (first_update_keeps_pause now t) as Hk.
  unfold FirstPopup.in_step in Hin. rewrite Ht in Hin.
  destruct (First.update now t) as [t' ret]. cbn [fst] in Hk.
  assert (Hpaused : First.isPaused t' = First.isPaused t)
    by (unfold First.isPaused; rewrite Hk; reflexivity).
  destruct ret as [v |].
  - eexists. eexists. split; [reflexivity |].
    unfold FirstPopup.in_step. cbn [FirstPopup.timer FirstPopup.state fst].
    rewrite Hpaused. split; [exact Hin |]. split; [reflexivity | left; reflexivity].
  - eexists. eexists. split; [reflexivity |].
    unfold FirstPopup.in_step, FirstPopup.stopTimer.
    cbn [FirstPopup.timer FirstPopup.state fst].
    split; [split; discriminate |]. split; [reflexivity | right; reflexivity].
Qed.

Lemma react_in_step (e : FirstPopup.Event) (w : FirstPopup.Popup) :
  FirstPopup.in_step w ->
  exists w', FirstPopup.react e w = Some w' /\ FirstPopup.in_step w'.
Proof.
  intros Hin. destruct e as [now0 now1 | | id now]; cbn [FirstPopup.react].
  - unfold FirstPopup.handlePlayClick.
    destruct (FirstPopup.state w) eqn:Hs.
    + unfold FirstPopup.in_step in Hin.
      destruct (FirstPopup.timer w) as [t |] eqn:Ht;
        [| destruct Hin as [Hin _]; congruence].
      eexists. split; [reflexivity |].
      unfold FirstPopup.in_step, FirstPopup.set_playLabel.
      cbn [FirstPopup.timer FirstPopup.state]. split; [discriminate | reflexivity].
    + unfold FirstPopup.in_step in Hin.
      destruct (FirstPopup.timer w) as [t |] eqn:Ht;
        [| destruct Hin as [Hin _]; congruence].
      eexists. split; [reflexivity |].
      unfold FirstPopup.in_step, FirstPopup.set_playLabel.
      cbn [FirstPopup.timer FirstPopup.state]. split; [reflexivity | discriminate].
    + set (w1 := FirstPopup.mkPopup STATE_PLAY _ _ _ _ _ _ _).
      assert (Hin1 : FirstPopup.in_step w1).
      { unfold FirstPopup.in_step, w1. cbn. split; [reflexivity | discriminate]. }
      destruct (updateTime_in_step now1 w1 _ eq_refl Hin1)
        as (w2 & again & Hu & Hin2 & Ht2 & _).
      rewrite Hu. eexists. split; [reflexivity |].
      unfold FirstPopup.in_step, FirstPopup.set_playLabel in *.
      cbn [FirstPopup.timer FirstPopup.state]. rewrite Ht2 in *. exact Hin2.
  - eexists. split; [reflexivity |].
    unfold FirstPopup.in_step, FirstPopup.stopTimer in *.
    cbn [FirstPopup.timer FirstPopup.state FirstPopup.sources].
    destruct (FirstPopup.timer w) as [t |].
    + split; discriminate.
    + destruct Hin as [_ Hsrc]. rewrite Hsrc. split; [reflexivity |].
      destruct (FirstPopup.timeout w); reflexivity.
  - unfold FirstPopup.dispatch.
    destruct (existsb (Nat.eqb id) (FirstPopup.sources w)) eqn:Hex;
      [| exists w; split; [reflexivity | exact Hin]].
    destruct (FirstPopup.timer w) as [t |] eqn:Ht.
    + destruct (updateTime_in_step now w t Ht Hin)
        as (w1 & again & Hu & Hin1 & Ht1 & _).
      rewrite Hu. destruct again.
      * exists w1. split; [reflexivity | exact Hin1].
      * eexists. split; [reflexivity |].
        unfold FirstPopup.in_step in *.
        cbn [FirstPopup.timer FirstPopup.state FirstPopup.sources].
        rewrite Ht1 in *. exact Hin1.
    + unfold FirstPopup.in_step in Hin. rewrite Ht in Hin.
      destruct Hin as [_ Hsrc]. rewrite Hsrc in Hex. discriminate.
Qed.

(** X17.  The popup of the first variant keeps its own state beside
    the timer's.  Over every run of clicks and dispatches from the
    constructed popup no method is called on an undefined timer, and
    the two stay in step: a Playing popup has a timer that is not
    paused, a Paused popup a timer that is paused, and a popup without
    a timer is Stopped with no source registered. *)
Theorem first_popup_stays_in_step (es : list FirstPopup.Event) :
  exists w,
    FirstPopup.react_all es FirstPopup.init = Some w
    /\ FirstPopup.in_step w.
Proof.
  assert (H : forall w0, FirstPopup.in_step w0 ->
                         exists w, FirstPopup.react_all es w0 = Some w
                                   /\ FirstPopup.in_step w).
  { induction es as [| e rest IH]; intros w0 Hin.
    - exists w0. split; [reflexivity | exact Hin].
    - destruct (react_in_step e w0 Hin) as (w1 & Hr & Hin1).
      cbn [FirstPopup.react_all]. rewrite Hr. apply IH. exact Hin1. }
  apply H. unfold FirstPopup.in_step. cbn. split; reflexivity.
Qed.

Lemma first_new_Timer_update (now0 now : Z) :
  let r := 5000000 - (now - now0) in
  First.update now (First.new_Timer now0 0 0 5)
  = if r <=? 0
    then (First.mkTimer (Some r) None (now0 + 5000000) None None None,
          First.RetFalse)
    else (First.mkTimer (Some r) None (now0 + 5000000)
                        (Some (seconds_of r)) (Some (minutes_of r))
                        (Some (hours_of r)),
          First.RetMcsLeft (Some r)).
Proof.
  cbv zeta. unfold First.update, First.new_Timer, First.isPaused, First.isFinished.
  cbn [First.pauseTimestamp First.finishTimestamp First.mcsLeft First.seconds
       First.minutes First.hours Js.toNumber].
  replace (now0 + SECOND_TO_MS * 5 + MINUTE_TO_MS * 0 + HOUR_TO_MS * 0)
    with (now0 + 5000000) by (unfold SECOND_TO_MS, MINUTE_TO_MS, HOUR_TO_MS; lia).
  replace (now0 + 5000000 - now) with (5000000 - (now - now0)) by lia.
  destruct (5000000 - (now - now0) <=? 0); reflexivity.
Qed.

(** X18.  The countdown of the first variant, which is always five
    seconds.  A click on the Stopped popup, the clock advancing by less
    than five seconds within the click, leaves it Playing with the
    whole seconds left on the panel, "Pause" on the play item and one
    new source registered.  The dispatch of that source five seconds
    or more after the click stops the popup, shows "Done!", makes one
    notification and removes the source. *)
Theorem first_popup_countdown (now0 now1 now2 : Z) (w : FirstPopup.Popup) :
  FirstPopup.state w = STATE_STOP ->
  now0 <= now1 -> now1 - now0 < 5000000 -> now0 + 5000000 <= now2 ->
  let r := 5000000 - (now1 - now0) in
  let id := FirstPopup.next_source w in
  exists w1 w2,
    FirstPopup.handlePlayClick now0 now1 w = Some w1
    /\ FirstPopup.state w1 = STATE_PLAY
    /\ FirstPopup.panelLabel w1
       = getFormatted (mkTime (hours_of r) (minutes_of r) (seconds_of r))
    /\ total_seconds (mkTime (hours_of r) (minutes_of r) (seconds_of r))
       = r / SECOND_TO_MS
    /\ FirstPopup.playLabel w1 = "Pause"%string
    /\ FirstPopup.sources w1 = FirstPopup.sources w ++ [id]
    /\ FirstPopup.notified w1 = FirstPopup.notified w
    /\ FirstPopup.dispatch id now2 w1 = Some w2
    /\ FirstPopup.state w2 = STATE_STOP
    /\ FirstPopup.panelLabel w2 = "Done!"%string
    /\ FirstPopup.playLabel w2 = "Start"%string
    /\ FirstPopup.notified w2 = FirstPopup.notified w ++ ["Done!"%string]
    /\ ~ In id (FirstPopup.sources w2).
Proof.
  intros Hs Hclock Hshort Hlate. cbv zeta.
  unfold FirstPopup.handlePlayClick. rewrite Hs.
  unfold FirstPopup.updateTime at 1. cbn [FirstPopup.timer].
  rewrite first_new_Timer_update. cbv zeta.
  destruct (Z.leb_spec (5000000 - (now1 - now0)) 0) as [Hle | Hgt]; [lia |].
  cbv iota beta.
  cbn [FirstPopup.state FirstPopup.timer FirstPopup.timeout FirstPopup.panelLabel
       FirstPopup.playLabel FirstPopup.sources FirstPopup.next_source
       FirstPopup.notified First.hours First.minutes First.seconds
       FirstPopup.String_].
  eexists. eexists. split; [reflexivity |].
  unfold FirstPopup.set_playLabel.
  cbn [FirstPopup.state FirstPopup.timer FirstPopup.timeout FirstPopup.panelLabel
       FirstPopup.playLabel FirstPopup.sources FirstPopup.next_source
       FirstPopup.notified playStateLabelMap].
  split; [reflexivity |]. split; [reflexivity |].
  split; [apply total_seconds_units; lia |].
  split; [reflexivity |]. split; [reflexivity |]. split; [reflexivity |].
  unfold FirstPopup.dispatch. cbn [FirstPopup.sources].
  assert (Hex : existsb (Nat.eqb (FirstPopup.next_source w))
                        (FirstPopup.sources w ++ [FirstPopup.next_source w]) = true).
  { apply existsb_exists. exists (FirstPopup.next_source w).
    split; [apply in_or_app; right; left; reflexivity | apply Nat.eqb_refl]. }
  rewrite Hex.
  unfold FirstPopup.updateTime, First.update, First.isPaused, First.isFinished.
  cbn [FirstPopup.timer First.pauseTimestamp First.finishTimestamp First.mcsLeft
       Js.toNumber].
  destruct (Z.leb_spec (now0 + 5000000 - now2) 0) as [Hle | Hgt2]; [| lia].
  cbv iota beta.
  split; [reflexivity |].
  unfold FirstPopup.stopTimer.
  cbn [FirstPopup.state FirstPopup.timer FirstPopup.timeout FirstPopup.panelLabel
       FirstPopup.playLabel FirstPopup.sources FirstPopup.next_source
       FirstPopup.notified playStateLabelMap].
  split; [reflexivity |]. split; [reflexivity |]. split; [reflexivity |].
  split; [reflexivity |].
  intros Hin. apply filter_In in Hin. destruct Hin as [_ Hb].
  rewrite Nat.eqb_refl in Hb. discriminate.
Qed.

Lemma first_popup_countdown_witness :
  FirstPopup.state FirstPopup.init = STATE_STOP
  /\ 100 <= 100 /\ 100 - 100 < 5000000 /\ 100 + 5000000 <= 5000100
  /\ exists w1 w2,
       FirstPopup.handlePlayClick 100 100 FirstPopup.init = Some w1
       /\ FirstPopup.panelLabel w1 = "00:00:05"%string
       /\ FirstPopup.dispatch 1 5000100 w1 = Some w2
       /\ FirstPopup.notified w2 = ["Done!"%string].
Proof.
  split; [reflexivity |]. split; [lia |]. split; [lia |]. split; [lia |].
  destruct (first_popup_countdown 100 100 5000100 FirstPopup.init eq_refl
              ltac:(lia) ltac:(lia) ltac:(lia))
    as (w1 & w2 & H1 & _ & H3 & _ & _ & _ & _ & H8 & _ & _ & _ & H12 & _).
  exists w1, w2.
  split; [exact H1 |]. split; [exact H3 |]. split; [exact H8 | exact H12].
Defined.
